(** * get-generated-content: the request handler of the edge function

    A shallow embedding of [supabase/functions/get-generated-content/index.ts]
    (src/index.ts).  The handler is one asynchronous function: it answers
    the preflight method at once and otherwise parses the body, checks the
    provider key, builds the transcript, resolves the action, composes the
    prompt, calls the provider and serialises the answer; every exception
    of that path is caught by one [catch].

    The model keeps what the code relies on from its runtime:
    - the values [req.json()] can yield (JSON values, plus [undefined] for
      the properties that are missing), with property access, the string
      coercion of template literals and [JSON.stringify];
    - exceptions, as a completion that is either normal or a throw;
    - the two observable effects (the provider call and [console.error]),
      as a trace of events. *)

From Stdlib Require Import String Ascii List ZArith Bool.
From Stdlib Require Import Numbers.DecimalString.
Import ListNotations.
Open Scope string_scope.
Set Warnings "-register-all".

(** ** Strings

    A JavaScript string is modelled by the [string] of its UTF-8 bytes
    (the strings of the model are the well-formed ones, without lone
    surrogates).  Concatenation, [join] and [===] on strings are then the
    ones of [string], and an ASCII character is one byte. *)

Definition LF : string := String "010"%char "".
Definition DQ : string := String "034"%char "".

(** [Array.prototype.join] on an array whose elements are strings. *)
Fixpoint Array_join (sep : string) (l : list string) : string :=
  match l with
  | [] => ""
  | x :: rest =>
      match rest with
      | [] => x
      | _ :: _ => x ++ sep ++ Array_join sep rest
      end
  end.

(** ** Numbers

    A number is a double; [req.json()] yields finite ones only.  The
    handler never computes with a number, it only turns it into a
    string, so a number is modelled by what [Number::toString] works
    from: for a number other than zero, its sign, the digits [s] of the
    shortest decimal that reads back as the number, and the position [n]
    of the decimal point ([k] being the number of digits of [s], the
    magnitude is [s * 10^(n - k)]).  1.5 is [s = 15, n = 1]; 10^21 is
    [s = 1, n = 22].  For a double, [s] has at most 17 digits and does
    not end in 0.  The two zeros are one value: both print [0]. *)

Inductive number : Type :=
| Zero
| Finite (negative : bool) (s : positive) (n : Z).

Definition digits_of (s : positive) : string :=
  NilZero.string_of_uint (Pos.to_uint s).

Fixpoint zeros (count : nat) : string :=
  match count with
  | O => ""
  | S count' => String "0" (zeros count')
  end.

(** [Number::toString] in radix 10: plain digits when the point is
    within the digits or at most 21 places to their right, a leading
    [0.] down to six places to their left, the exponent form
    otherwise. *)
Definition Number_toString (x : number) : string :=
  match x with
  | Zero => "0"
  | Finite negative s n =>
      let digits := digits_of s in
      let k := Z.of_nat (String.length digits) in
      (if negative then "-" else "") ++
      (if ((-5 <=? n) && (n <=? 21))%Z then
         if (k <=? n)%Z then digits ++ zeros (Z.to_nat (n - k))
         else if (0 <? n)%Z then
           substring 0 (Z.to_nat n) digits ++ "."
           ++ substring (Z.to_nat n) (Z.to_nat (k - n)) digits
         else "0." ++ zeros (Z.to_nat (- n)) ++ digits
       else
         let e := (n - 1)%Z in
         let exponent :=
           (if (e <? 0)%Z then "-" else "+")
           ++ NilZero.string_of_uint (N.to_uint (Z.abs_N e)) in
         if (k =? 1)%Z then digits ++ "e" ++ exponent
         else substring 0 1 digits ++ "."
              ++ substring 1 (Z.to_nat (k - 1)) digits ++ "e" ++ exponent)
  end.

Fixpoint strip_trailing_zeros (fuel : nat) (p : positive) : positive :=
  match fuel with
  | O => p
  | S fuel' =>
      match (Z.pos p mod 10)%Z, (Z.pos p / 10)%Z with
      | Z0, Zpos q => strip_trailing_zeros fuel' q
      | _, _ => p
      end
  end.

(** The number of an integer that a double holds exactly and prints in
    full (a magnitude below 2^53): its shortest decimal is made of its
    own digits, without the zeros at the end. *)
Definition integer (z : Z) : number :=
  match z with
  | Z0 => Zero
  | Zpos p =>
      Finite false (strip_trailing_zeros (String.length (digits_of p)) p)
        (Z.of_nat (String.length (digits_of p)))
  | Zneg p =>
      Finite true (strip_trailing_zeros (String.length (digits_of p)) p)
        (Z.of_nat (String.length (digits_of p)))
  end.

(** ** Values *)

Inductive jsval : Type :=
| JUndefined
| JNull
| JBool (b : bool)
| JNum (n : number)
| JStr (s : string)
| JArr (elems : list jsval)
| JObj (props : list (string * jsval)).  (* own properties, in order *)

(** ** Exceptions

    What is thrown is an [Error] object: the ones the handler creates, the
    ones of the runtime (TypeError, SyntaxError) and the ones of the
    provider's client.  The handler reads its [message] only.  The wording
    of the runtime's messages is the one of V8. *)

Record JsError : Type := mkError { name : string; message : string }.

Definition Error (msg : string) : JsError := mkError "Error" msg.
Definition TypeError (msg : string) : JsError := mkError "TypeError" msg.

Inductive Completion (A : Type) : Type :=
| Normal (a : A)
| Throw (e : JsError).
Arguments Normal {A} a.
Arguments Throw {A} e.

Definition cbind {A B} (c : Completion A) (k : A -> Completion B) : Completion B :=
  match c with
  | Normal a => k a
  | Throw e => Throw e
  end.

Declare Scope completion_scope.
Delimit Scope completion_scope with completion.
Notation "x <- c ;; k" := (cbind c (fun x => k))
  (at level 61, c at next level, right associativity) : completion_scope.

(** ** Property access and coercions *)

Fixpoint own_property (k : string) (props : list (string * jsval)) : option jsval :=
  match props with
  | [] => None
  | (k', v) :: rest => if String.eqb k k' then Some v else own_property k rest
  end.

(** [v.k] for a property name [k] that no built-in prototype defines (the
    handler reads [actionKey], [chatHistory], [sender] and [text]): the own
    property of an object, [undefined] on any other value that has
    properties, a TypeError on [undefined] and [null]. *)
Definition Get (v : jsval) (k : string) : Completion jsval :=
  match v with
  | JUndefined =>
      Throw (TypeError ("Cannot read properties of undefined (reading '" ++ k ++ "')"))
  | JNull =>
      Throw (TypeError ("Cannot read properties of null (reading '" ++ k ++ "')"))
  | JObj props =>
      match own_property k props with
      | Some x => Normal x
      | None => Normal JUndefined
      end
  | _ => Normal JUndefined
  end.

(** [ToString], the coercion a template literal applies to a substitution.
    An array goes through [Array.prototype.join] with a comma, where
    [undefined] and [null] elements give the empty string.  An object goes
    through [toString] then [valueOf]: the inherited [toString] answers
    "[object Object]" unless an own property of that name hides it, and an
    own property of a JSON value is never callable, so that the coercion
    then ends in a TypeError. *)
Fixpoint ToString (v : jsval) : Completion string :=
  match v with
  | JUndefined => Normal "undefined"
  | JNull => Normal "null"
  | JBool true => Normal "true"
  | JBool false => Normal "false"
  | JNum n => Normal (Number_toString n)
  | JStr s => Normal s
  | JArr elems =>
      (fix join_elems (l : list jsval) : Completion string :=
         match l with
         | [] => Normal ""
         | x :: rest =>
             cbind (match x with
                    | JUndefined | JNull => Normal ""
                    | _ => ToString x
                    end)
               (fun s =>
                  match rest with
                  | [] => Normal s
                  | _ :: _ => cbind (join_elems rest) (fun r => Normal (s ++ "," ++ r))
                  end)
         end) elems
  | JObj props =>
      match own_property "toString" props with
      | Some _ => Throw (TypeError "Cannot convert object to primitive value")
      | None => Normal "[object Object]"
      end
  end.

(** ** [JSON.stringify]

    [QuoteJSONString]: the two-character escapes, a [\u00xx] escape for the
    other control characters, every other character as it is (the bytes
    of a character above 127 are all above 127 and stay as they are). *)

Definition hex_digit (n : N) : ascii :=
  match n with
  | 0%N => "0" | 1%N => "1" | 2%N => "2" | 3%N => "3"
  | 4%N => "4" | 5%N => "5" | 6%N => "6" | 7%N => "7"
  | 8%N => "8" | 9%N => "9" | 10%N => "a" | 11%N => "b"
  | 12%N => "c" | 13%N => "d" | 14%N => "e" | _ => "f"
  end%char.

Definition UnicodeEscape (c : ascii) : string :=
  let n := N_of_ascii c in
  "\u00" ++ String (hex_digit (n / 16)) (String (hex_digit (n mod 16)) "").

Definition quote_code_unit (c : ascii) : string :=
  if (c =? "008")%char then "\b"
  else if (c =? "009")%char then "\t"
  else if (c =? "010")%char then "\n"
  else if (c =? "012")%char then "\f"
  else if (c =? "013")%char then "\r"
  else if (c =? "034")%char then "\" ++ DQ
  else if (c =? "\")%char then "\\"
  else if (N_of_ascii c <? 32)%N then UnicodeEscape c
  else String c "".

Fixpoint quote_code_units (s : string) : string :=
  match s with
  | "" => ""
  | String c rest => quote_code_unit c ++ quote_code_units rest
  end.

Definition QuoteJSONString (s : string) : string :=
  DQ ++ quote_code_units s ++ DQ.

(** [SerializeJSONProperty] without indentation; [None] is [undefined].  A
    property whose value is [undefined] is left out of an object and is
    written [null] in an array. *)
Fixpoint JSON_stringify (v : jsval) : option string :=
  match v with
  | JUndefined => None
  | JNull => Some "null"
  | JBool true => Some "true"
  | JBool false => Some "false"
  | JNum n => Some (Number_toString n)
  | JStr s => Some (QuoteJSONString s)
  | JArr elems =>
      Some ("[" ++ Array_join ","
              ((fix ser_elems (l : list jsval) : list string :=
                  match l with
                  | [] => []
                  | x :: rest =>
                      match JSON_stringify x with
                      | Some s => s
                      | None => "null"
                      end :: ser_elems rest
                  end) elems) ++ "]")
  | JObj props =>
      Some ("{" ++ Array_join ","
              ((fix ser_props (l : list (string * jsval)) : list string :=
                  match l with
                  | [] => []
                  | (k, x) :: rest =>
                      match JSON_stringify x with
                      | Some s => (QuoteJSONString k ++ ":" ++ s) :: ser_props rest
                      | None => ser_props rest
                      end
                  end) props) ++ "}")
  end.

(** ** Effects

    A computation yields the events it emitted, in order, and its
    completion. *)

Inductive event : Type :=
| GenerateContent (apiKey model prompt : string)  (* model.generateContent(prompt) *)
| ConsoleError (args : list string).              (* console.error(...args) *)

Definition M (A : Type) : Type := (list event * Completion A)%type.

Definition ret {A} (a : A) : M A := ([], Normal a).
Definition throw {A} (e : JsError) : M A := ([], Throw e).
Definition lift {A} (c : Completion A) : M A := ([], c).
Definition emit (ev : event) : M unit := ([ev], Normal tt).

Definition bind {A B} (m : M A) (k : A -> M B) : M B :=
  match m with
  | (tr, Normal a) => let (tr', c) := k a in ((tr ++ tr')%list, c)
  | (tr, Throw e) => (tr, Throw e)
  end.

(** [try { m } catch (error) { h error }] *)
Definition try_catch {A} (m : M A) (h : JsError -> M A) : M A :=
  match m with
  | (tr, Normal a) => (tr, Normal a)
  | (tr, Throw e) => let (tr', c) := h e in ((tr ++ tr')%list, c)
  end.

Declare Scope js_scope.
Delimit Scope js_scope with js.
Notation "x <- m ;; k" := (bind m (fun x => k))
  (at level 61, m at next level, right associativity) : js_scope.
Notation "m ;; k" := (bind m (fun _ => k))
  (at level 61, right associativity) : js_scope.

(** ** The runtime around the handler *)

(** What the provider's client answers: [result.response.text()] returns
    the text or throws.  The model covers the calls that settle, with a
    result or with an [Error] of the client; a call that never settles
    leaves the request without a response and is outside of it. *)
Record GenerateContentResult : Type :=
  { response_text : Completion string }.

Record World : Type :=
  { (* Deno.env.get *)
    env_get : string -> option string;
    (* new GoogleGenerativeAI(apiKey).getGenerativeModel({ model }).generateContent(prompt) *)
    generateContent : string -> string -> string -> Completion GenerateContentResult }.

(** The request as the handler reads it: its method and what awaiting
    [req.json()] gives, a parsed value or the exception of the parser.
    The two are not independent: see [deliverable]. *)
Record Request : Type :=
  { method : string;
    json : Completion jsval }.

Record Response : Type :=
  { body : string;
    status : Z;
    headers : list (string * string) }.

(** [new Response(body, { headers, status })]; the status defaults to 200
    and an [undefined] body is the empty body.  [headers] are the ones
    the handler passes. *)
Definition new_Response (b : option string) (hs : list (string * string))
    (st : option Z) : Response :=
  {| body := match b with Some s => s | None => "" end;
     status := match st with Some n => n | None => 200%Z end;
     headers := hs |}.

(** ** The handler *)

Definition corsHeaders : list (string * string) :=
  [ ("Access-Control-Allow-Origin", "*");
    ("Access-Control-Allow-Headers", "authorization, x-client-info, apikey, content-type") ].

(** [{ ...corsHeaders, 'Content-Type': 'application/json' }] *)
Definition jsonHeaders : list (string * string) :=
  (corsHeaders ++ [ ("Content-Type", "application/json") ])%list.

(** [const { actionKey, chatHistory } = ...]: a TypeError on [null] (and
    [undefined]), the two properties otherwise. *)
Definition destructure (v : jsval) : Completion (jsval * jsval) :=
  match v with
  | JUndefined =>
      Throw (TypeError
        "Cannot destructure property 'actionKey' of '(intermediate value)' as it is undefined.")
  | JNull =>
      Throw (TypeError
        "Cannot destructure property 'actionKey' of '(intermediate value)' as it is null.")
  | _ =>
      (actionKey <- Get v "actionKey";;
       chatHistory <- Get v "chatHistory";;
       Normal (actionKey, chatHistory))%completion
  end.

(** [!googleApiKey] is false exactly on a non-empty string. *)
Definition truthy (v : option string) : bool :=
  match v with
  | None => false
  | Some s => negb (s =? "")
  end.

(** [m => `${m.sender}: ${m.text}`] *)
Definition message_line (m : jsval) : Completion string :=
  (sender <- Get m "sender";;
   s <- ToString sender;;
   text <- Get m "text";;
   t <- ToString text;;
   Normal (s ++ ": " ++ t))%completion.

(** [Array.prototype.map] with a callback that may throw. *)
Fixpoint Array_map {A B} (f : A -> Completion B) (l : list A) : Completion (list B) :=
  match l with
  | [] => Normal []
  | x :: rest =>
      (y <- f x;;
       ys <- Array_map f rest;;
       Normal (y :: ys))%completion
  end.

(** [chatHistory.map(m => ...).join('\n')]: only an array has a callable
    [map]. *)
Definition conversationText (chatHistory : jsval) : Completion string :=
  match chatHistory with
  | JUndefined => Throw (TypeError "Cannot read properties of undefined (reading 'map')")
  | JNull => Throw (TypeError "Cannot read properties of null (reading 'map')")
  | JArr elems =>
      (lines <- Array_map message_line elems;;
       Normal (Array_join LF lines))%completion
  | _ => Throw (TypeError "chatHistory.map is not a function")
  end.

(** The [switch] on [actionKey]; a [case] compares with [===], so that only
    a string can match. *)
Definition actionDescription (actionKey : jsval) : Completion string :=
  let default :=
    (k <- ToString actionKey;;
     Throw (Error ("Unknown action key: " ++ k)))%completion in
  match actionKey with
  | JStr k =>
      if k =? "email_landlord" then
        Normal "Draft a polite but firm email to the landlord."
      else if k =? "dispute_message" then
        Normal "Draft a clear, factual dispute message for a tenancy deposit scheme."
      else if k =? "step_by_step_guide" then
        Normal "Create a simple, step-by-step guide on how to proceed."
      else if k =? "email_council" then
        Normal "Draft a formal email to the local council's housing team."
      else if k =? "call_council" then
        Normal "Create a bullet-point list of key points for a phone call to the council."
      else default
  | _ => default
  end.

(** The template literal of the prompt, line by line. *)
Definition prompt (action_description conversation_text : string) : string :=
  LF ++
  "      You are an expert AI assistant providing drafting support to UK tenants." ++ LF ++
  "      Based on the following conversation history, your task is to generate a specific document." ++ LF ++
  LF ++
  "      Action Required: " ++ action_description ++ LF ++
  LF ++
  "      Conversation History:" ++ LF ++
  "      " ++ conversation_text ++ LF ++
  LF ++
  "      Instructions:" ++ LF ++
  "      1. Review the entire conversation to understand the user's specific problem." ++ LF ++
  "      2. Generate the requested document with a professional and appropriate tone." ++ LF ++
  "      3. Use placeholders like " ++ DQ ++ "[Your Name]" ++ DQ ++ " or " ++ DQ ++ "[Date]" ++ DQ ++ " where needed." ++ LF ++
  "      4. IMPORTANT: Return ONLY the generated text. Do not add any conversational intros or summaries." ++ LF ++
  "    ".

Definition model_id : string := "gemini-2.5-flash".

(** [await model.generateContent(prompt)] *)
Definition call_provider (w : World) (apiKey p : string) : M GenerateContentResult :=
  (emit (GenerateContent apiKey model_id p);;
   lift (generateContent w apiKey model_id p))%js.

(** The body of the [try] block.  Creating the client and selecting the
    model, between the key check and the transcript, neither throws nor
    is observable; the key and the model reach the provider with the
    call. *)
Definition main (w : World) (req : Request) : M Response :=
  (parsed <- lift (json req);;
   fields <- lift (destructure parsed);;
   let (actionKey, chatHistory) := fields : jsval * jsval in
   let googleApiKey := env_get w "GOOGLE_AI_API_KEY" in
   if negb (truthy googleApiKey) then throw (Error "Missing Google AI API Key")
   else
     let apiKey := match googleApiKey with Some k => k | None => "" end in
     transcript <- lift (conversationText chatHistory);;
     description <- lift (actionDescription actionKey);;
     result <- call_provider w apiKey (prompt description transcript);;
     generatedText <- lift (response_text result);;
     ret (new_Response (JSON_stringify (JObj [("text", JStr generatedText)]))
            jsonHeaders None))%js.

(** The [catch] block. *)
Definition on_error (error : JsError) : M Response :=
  (emit (ConsoleError ["Error in get-generated-content:"; message error]);;
   ret (new_Response (JSON_stringify (JObj [("error", JStr (message error))]))
          jsonHeaders (Some 500%Z)))%js.

Definition handler (w : World) (req : Request) : M Response :=
  if method req =? "OPTIONS" then ret (new_Response (Some "ok") corsHeaders None)
  else try_catch (main w req) on_error.

(** ** [JSON.parse], as the caller of the endpoint applies it to a body

    The reader covers the three literals, integers of at most 15 digits
    without fraction or exponent (they are read without rounding),
    strings with their escapes ([\u] escapes up to 007f), arrays and
    objects.  Anything else is [None]. *)

Definition is_ws (c : ascii) : bool :=
  ((c =? " ") || (c =? "009") || (c =? "010") || (c =? "013"))%char.

Fixpoint skip_ws (s : string) : string :=
  match s with
  | "" => ""
  | String c rest => if is_ws c then skip_ws rest else s
  end.

Definition hex_value (c : ascii) : option N :=
  let n := N_of_ascii c in
  if ((48 <=? n) && (n <=? 57))%N then Some (n - 48)%N
  else if ((97 <=? n) && (n <=? 102))%N then Some (n - 87)%N
  else if ((65 <=? n) && (n <=? 70))%N then Some (n - 55)%N
  else None.

Definition hex4 (a b c d : ascii) : option N :=
  match hex_value a, hex_value b, hex_value c, hex_value d with
  | Some x, Some y, Some z, Some t => Some (((x * 16 + y) * 16 + z) * 16 + t)%N
  | _, _, _, _ => None
  end.

Definition cons_char {A} (c : ascii) (r : option (string * A)) : option (string * A) :=
  match r with
  | Some (s, rest) => Some (String c s, rest)
  | None => None
  end.

(** The characters of a string literal after its opening quote, up to the
    closing one; the result is the string and the input left. *)
Fixpoint parse_chars (s : string) : option (string * string) :=
  match s with
  | "" => None
  | String c r =>
      if (c =? "034")%char then Some ("", r)
      else if (c =? "\")%char then
        match r with
        | "" => None
        | String e r1 =>
            if (e =? "034")%char then cons_char "034" (parse_chars r1)
            else if (e =? "\")%char then cons_char "\" (parse_chars r1)
            else if (e =? "/")%char then cons_char "/" (parse_chars r1)
            else if (e =? "b")%char then cons_char "008" (parse_chars r1)
            else if (e =? "f")%char then cons_char "012" (parse_chars r1)
            else if (e =? "n")%char then cons_char "010" (parse_chars r1)
            else if (e =? "r")%char then cons_char "013" (parse_chars r1)
            else if (e =? "t")%char then cons_char "009" (parse_chars r1)
            else if (e =? "u")%char then
              match r1 with
              | String h1 (String h2 (String h3 (String h4 r2))) =>
                  match hex4 h1 h2 h3 h4 with
                  | Some n =>
                      if (n <? 128)%N then cons_char (ascii_of_N n) (parse_chars r2)
                      else None
                  | None => None
                  end
              | _ => None
              end
            else None
        end
      else if (N_of_ascii c <? 32)%N then None
      else cons_char c (parse_chars r)
  end.

Definition is_digit (c : ascii) : bool :=
  ((48 <=? N_of_ascii c) && (N_of_ascii c <=? 57))%N.

Fixpoint parse_digits (acc : Z) (s : string) : Z * string :=
  match s with
  | "" => (acc, "")
  | String c rest =>
      if is_digit c then parse_digits (acc * 10 + Z.of_N (N_of_ascii c - 48)) rest
      else (acc, s)
  end.

(** An integer: a single [0], or a non-zero digit and more digits; a
    fraction or an exponent after it is outside the model. *)
Definition parse_natural (s : string) : option (Z * string) :=
  match s with
  | "" => None
  | String c rest =>
      if negb (is_digit c) then None
      else
        let (n, rest') :=
          if (c =? "0")%char then (0%Z, rest) else parse_digits 0 s in
        match rest' with
        | String d _ =>
            if is_digit d || (d =? ".")%char || (d =? "e")%char || (d =? "E")%char
            then None else Some (n, rest')
        | "" => Some (n, rest')
        end
  end.

Fixpoint strip_prefix (p s : string) : option string :=
  match p, s with
  | "", _ => Some s
  | String a p', String b s' => if (a =? b)%char then strip_prefix p' s' else None
  | String _ _, "" => None
  end.

(** A later member of an object replaces an earlier one of the same name
    and keeps its place. *)
Fixpoint set_property (k : string) (v : jsval) (props : list (string * jsval))
  : list (string * jsval) :=
  match props with
  | [] => [(k, v)]
  | (k', v') :: rest =>
      if k =? k' then (k, v) :: rest else (k', v') :: set_property k v rest
  end.

Fixpoint parse_value (fuel : nat) (s : string) {struct fuel} : option (jsval * string) :=
  match fuel with
  | O => None
  | S fuel' =>
      match skip_ws s with
      | "" => None
      | String c r as s' =>
          if (c =? "034")%char then
            match parse_chars r with
            | Some (str, rest) => Some (JStr str, rest)
            | None => None
            end
          else if (c =? "[")%char then
            match skip_ws r with
            | String "]" rest => Some (JArr [], rest)
            | _ => parse_elements fuel' r []
            end
          else if (c =? "{")%char then
            match skip_ws r with
            | String "}" rest => Some (JObj [], rest)
            | _ => parse_members fuel' r []
            end
          else if (c =? "-")%char then
            match parse_natural r with
            | Some (n, rest) =>
                if (n <? 10 ^ 15)%Z then Some (JNum (integer (- n)), rest) else None
            | None => None
            end
          else if is_digit c then
            match parse_natural s' with
            | Some (n, rest) =>
                if (n <? 10 ^ 15)%Z then Some (JNum (integer n), rest) else None
            | None => None
            end
          else
            match strip_prefix "null" s', strip_prefix "true" s', strip_prefix "false" s' with
            | Some rest, _, _ => Some (JNull, rest)
            | _, Some rest, _ => Some (JBool true, rest)
            | _, _, Some rest => Some (JBool false, rest)
            | _, _, _ => None
            end
      end
  end

with parse_elements (fuel : nat) (s : string) (acc : list jsval) {struct fuel}
  : option (jsval * string) :=
  match fuel with
  | O => None
  | S fuel' =>
      match parse_value fuel' s with
      | Some (v, rest) =>
          match skip_ws rest with
          | String "," rest' => parse_elements fuel' rest' (acc ++ [v])%list
          | String "]" rest' => Some (JArr (acc ++ [v])%list, rest')
          | _ => None
          end
      | None => None
      end
  end

with parse_members (fuel : nat) (s : string) (acc : list (string * jsval)) {struct fuel}
  : option (jsval * string) :=
  match fuel with
  | O => None
  | S fuel' =>
      match skip_ws s with
      | String "034" r =>
          match parse_chars r with
          | Some (k, rest) =>
              match skip_ws rest with
              | String ":" rest1 =>
                  match parse_value fuel' rest1 with
                  | Some (v, rest2) =>
                      match skip_ws rest2 with
                      | String "," rest3 => parse_members fuel' rest3 (set_property k v acc)
                      | String "}" rest3 => Some (JObj (set_property k v acc), rest3)
                      | _ => None
                      end
                  | None => None
                  end
              | _ => None
              end
          | None => None
          end
      | _ => None
      end
  end.

Definition JSON_parse (s : string) : option jsval :=
  match parse_value (S (String.length s)) s with
  | Some (v, rest) =>
      match skip_ws rest with
      | "" => Some v
      | String _ _ => None
      end
  | None => None
  end.

(** ** What the specification says, in the terms of the model *)

(** The table of the specification: action key and instruction. *)
Definition instruction_table : list (string * string) :=
  [ ("email_landlord", "Draft a polite but firm email to the landlord.");
    ("dispute_message",
     "Draft a clear, factual dispute message for a tenancy deposit scheme.");
    ("step_by_step_guide", "Create a simple, step-by-step guide on how to proceed.");
    ("email_council", "Draft a formal email to the local council's housing team.");
    ("call_council",
     "Create a bullet-point list of key points for a phone call to the council.") ].

Definition table_key (k : string) : bool :=
  existsb (String.eqb k) (map fst instruction_table).

(** A chat message with string fields, as a value. *)
Definition is_message (m : jsval) (st : string * string) : Prop :=
  Get m "sender" = Normal (JStr (fst st)) /\ Get m "text" = Normal (JStr (snd st)).

(** The transcript of the specification: each message as
    [<sender>: <text>], joined by newlines, in the order of the input. *)
Definition transcript_spec (ms : list (string * string)) : string :=
  String.concat LF (map (fun st => fst st ++ ": " ++ snd st) ms).

(** The text of a one-property JSON object whose value is a string. *)
Definition json_object1 (key value : string) : string :=
  "{" ++ (QuoteJSONString key ++ ":" ++ QuoteJSONString value) ++ "}".

(** The uniform error response and the log entry that goes with it. *)
Definition error_response (msg : string) : Response :=
  {| body := json_object1 "error" msg;
     status := 500;
     headers :=
       [ ("Access-Control-Allow-Origin", "*");
         ("Access-Control-Allow-Headers",
          "authorization, x-client-info, apikey, content-type");
         ("Content-Type", "application/json") ] |}.

Definition error_log (msg : string) : event :=
  ConsoleError ["Error in get-generated-content:"; msg].

Definition success_response (text : string) : Response :=
  {| body := json_object1 "text" text;
     status := 200;
     headers :=
       [ ("Access-Control-Allow-Origin", "*");
         ("Access-Control-Allow-Headers",
          "authorization, x-client-info, apikey, content-type");
         ("Content-Type", "application/json") ] |}.

(** [part] occurs in [whole]. *)
Definition embeds (part whole : string) : Prop :=
  exists pre post, whole = pre ++ part ++ post.

(** The provider calls of a trace: key, model and prompt of each. *)
Fixpoint provider_calls (tr : list event) : list (string * string * string) :=
  match tr with
  | [] => []
  | GenerateContent k m p :: rest => (k, m, p) :: provider_calls rest
  | ConsoleError _ :: rest => provider_calls rest
  end.

(** What the provider answers to a prompt: the text, or the exception of
    the call or of reading the text. *)
Definition provider_answer (w : World) (apiKey p : string) : Completion string :=
  cbind (generateContent w apiKey model_id p) response_text.

(** The failures of the main path, after the error taxonomy of the
    specification; each comes with the events that precede it. *)
Inductive failure (w : World) (req : Request) : list event -> JsError -> Prop :=
| MalformedBody e :
    json req = Throw e ->
    failure w req [] e
| InvalidBody v e :
    json req = Normal v ->
    destructure v = Throw e ->
    failure w req [] e
| MissingKey v fields :
    json req = Normal v ->
    destructure v = Normal fields ->
    truthy (env_get w "GOOGLE_AI_API_KEY") = false ->
    failure w req [] (Error "Missing Google AI API Key")
| InvalidHistory v ak ch key e :
    json req = Normal v ->
    destructure v = Normal (ak, ch) ->
    env_get w "GOOGLE_AI_API_KEY" = Some key -> key <> "" ->
    conversationText ch = Throw e ->
    failure w req [] e
| UnknownAction v ak ch key t e :
    json req = Normal v ->
    destructure v = Normal (ak, ch) ->
    env_get w "GOOGLE_AI_API_KEY" = Some key -> key <> "" ->
    conversationText ch = Normal t ->
    actionDescription ak = Throw e ->
    failure w req [] e
| ProviderFailure v ak ch key t d e :
    json req = Normal v ->
    destructure v = Normal (ak, ch) ->
    env_get w "GOOGLE_AI_API_KEY" = Some key -> key <> "" ->
    conversationText ch = Normal t ->
    actionDescription ak = Normal d ->
    provider_answer w key (prompt d t) = Throw e ->
    failure w req [GenerateContent key model_id (prompt d t)] e.


(** The [console.error] calls of a trace: the arguments of each. *)
Fixpoint console_errors (tr : list event) : list (list string) :=
  match tr with
  | [] => []
  | ConsoleError args :: rest => args :: console_errors rest
  | GenerateContent _ _ _ :: rest => console_errors rest
  end.

(** The main path gets as far as the provider call: body parsed, fields
    read, key set, transcript [t] built, instruction [d] resolved. *)
Definition reaches_provider (w : World) (req : Request) (key d t : string) : Prop :=
  exists v ak ch,
    json req = Normal v
    /\ destructure v = Normal (ak, ch)
    /\ env_get w "GOOGLE_AI_API_KEY" = Some key /\ key <> ""
    /\ conversationText ch = Normal t
    /\ actionDescription ak = Normal d.

(** An element of the chat history that is not a message and still has
    properties: a number, a boolean, a string, an array, or an object
    with neither [sender] nor [text]. *)
Definition fieldless (m : jsval) : bool :=
  match m with
  | JUndefined | JNull => false
  | JObj props =>
      match own_property "sender" props, own_property "text" props with
      | None, None => true
      | _, _ => false
      end
  | _ => true
  end.

Definition is_array (v : jsval) : bool :=
  match v with
  | JArr _ => true
  | _ => false
  end.

(** A request as the runtime delivers it: one with the method GET or HEAD
    has no body, so that [req.json()] throws on it. *)
Definition deliverable (req : Request) : Prop :=
  method req = "GET" \/ method req = "HEAD" -> exists e, json req = Throw e.

(** ** Sample requests and worlds *)

Definition post (v : jsval) : Request :=
  {| method := "POST"; json := Normal v |}.

Definition payload (actionKey chatHistory : jsval) : jsval :=
  JObj [("actionKey", actionKey); ("chatHistory", chatHistory)].

Definition chat_message (sender text : string) : jsval :=
  JObj [("sender", JStr sender); ("text", JStr text)].

(** A world whose provider answers every prompt with one text. *)
Definition world_answering (apiKey : option string) (text : string) : World :=
  {| env_get := fun k => if k =? "GOOGLE_AI_API_KEY" then apiKey else None;
     generateContent := fun _ _ _ => Normal {| response_text := Normal text |} |}.

(** * Properties *)

(** ** Strings and the round trip of a quoted string *)

Lemma string_app_assoc (a b c : string) : (a ++ b) ++ c = a ++ b ++ c.
Proof.
  induction a as [|x a IH]; simpl; [reflexivity | now rewrite IH].
Qed.

Lemma string_app_nil_r (a : string) : a ++ "" = a.
Proof.
  induction a as [|x a IH]; simpl; [reflexivity | now rewrite IH].
Qed.

Lemma Array_join_concat (sep : string) (l : list string) :
  Array_join sep l = String.concat sep l.
Proof.
  induction l as [|x l IH]; [reflexivity|].
  destruct l as [|y l]; [reflexivity|].
  change (x ++ sep ++ Array_join sep (y :: l) = x ++ sep ++ String.concat sep (y :: l)).
  now rewrite IH.
Qed.

(** Reading back one quoted character gives the character. *)
Lemma parse_quoted_unit (c : ascii) (t : string) :
  parse_chars (quote_code_unit c ++ t) = cons_char c (parse_chars t).
Proof.
  destruct c as [[] [] [] [] [] [] [] []]; reflexivity.
Qed.

Lemma parse_quoted_units (s rest : string) :
  parse_chars (quote_code_units s ++ String "034" rest) = Some (s, rest).
Proof.
  induction s as [|c s IH].
  - reflexivity.
  - cbn [quote_code_units]. rewrite string_app_assoc, parse_quoted_unit, IH.
    reflexivity.
Qed.

Lemma stringify_object1 (key value : string) :
  JSON_stringify (JObj [(key, JStr value)]) = Some (json_object1 key value).
Proof. reflexivity. Qed.

Lemma skip_ws_quote (s : string) : skip_ws (String "034" s) = String "034" s.
Proof. reflexivity. Qed.

Lemma parse_value_object1 (f : nat) (key value rest : string) :
  parse_value (S (S (S f)))
    (String "{" (String "034" (quote_code_units key ++
       String "034" (String ":" (String "034" (quote_code_units value ++
       String "034" (String "}" rest)))))))
  = Some (JObj [(key, JStr value)], rest).
Proof.
  cbn [parse_value skip_ws is_ws Ascii.eqb Bool.eqb orb].
  cbn [parse_members skip_ws is_ws Ascii.eqb Bool.eqb orb].
  rewrite parse_quoted_units.
  cbn [skip_ws is_ws Ascii.eqb Bool.eqb orb parse_value].
  rewrite parse_quoted_units.
  reflexivity.
Qed.

(** The reader gives the one-property object back. *)
Lemma parse_object1 (key value : string) :
  JSON_parse (json_object1 key value) = Some (JObj [(key, JStr value)]).
Proof.
  unfold JSON_parse, json_object1, QuoteJSONString, DQ.
  cbn [String.append].
  rewrite !string_app_assoc. cbn [String.append].
  rewrite !string_app_assoc. cbn [String.append String.length].
  destruct (String.length _) as [|n] eqn:Hlen.
  - destruct (quote_code_units key); discriminate.
  - rewrite parse_value_object1. reflexivity.
Qed.

(** ** The steps of the main path *)

Lemma bind_Normal {A B} (a : A) (k : A -> M B) : bind (lift (Normal a)) k = k a.
Proof. unfold bind, lift. now destruct (k a). Qed.

Lemma bind_Throw {A B} (e : JsError) (k : A -> M B) :
  bind (lift (Throw e)) k = ([], Throw e).
Proof. reflexivity. Qed.

Lemma truthy_Some (o : option string) (key : string) :
  o = Some key -> key <> "" -> truthy o = true.
Proof.
  intros -> H. unfold truthy. now apply String.eqb_neq in H as ->.
Qed.

Lemma not_preflight (w : World) (req : Request) :
  method req <> "OPTIONS" -> handler w req = try_catch (main w req) on_error.
Proof.
  intros H. unfold handler. now apply String.eqb_neq in H as ->.
Qed.

Lemma caught (w : World) (req : Request) (tr : list event) (e : JsError) :
  method req <> "OPTIONS" ->
  main w req = (tr, Throw e) ->
  handler w req = ((tr ++ [error_log (message e)])%list, Normal (error_response (message e))).
Proof.
  intros Hm Hmain. rewrite not_preflight, Hmain by assumption. reflexivity.
Qed.

Lemma not_caught (w : World) (req : Request) (tr : list event) (r : Response) :
  method req <> "OPTIONS" ->
  main w req = (tr, Normal r) ->
  handler w req = (tr, Normal r).
Proof.
  intros Hm Hmain. rewrite not_preflight, Hmain by assumption. reflexivity.
Qed.

Section MainPath.
Variables (w : World) (req : Request) (v actionKey chatHistory : jsval).
Hypothesis Hjson : json req = Normal v.
Hypothesis Hfields : destructure v = Normal (actionKey, chatHistory).

Lemma main_without_key :
  truthy (env_get w "GOOGLE_AI_API_KEY") = false ->
  main w req = ([], Throw (Error "Missing Google AI API Key")).
Proof.
  intros Hkey. unfold main.
  rewrite Hjson, bind_Normal, Hfields, bind_Normal, Hkey. reflexivity.
Qed.

Variable key : string.
Hypothesis Hkey : env_get w "GOOGLE_AI_API_KEY" = Some key.
Hypothesis Hkey_set : key <> "".

Lemma main_with_key :
  main w req =
  (transcript <- lift (conversationText chatHistory);;
   description <- lift (actionDescription actionKey);;
   result <- call_provider w key (prompt description transcript);;
   generatedText <- lift (response_text result);;
   ret (new_Response (JSON_stringify (JObj [("text", JStr generatedText)]))
          jsonHeaders None))%js.
Proof.
  unfold main.
  rewrite Hjson, bind_Normal, Hfields, bind_Normal.
  rewrite (truthy_Some _ key Hkey Hkey_set), Hkey. reflexivity.
Qed.

Lemma main_bad_history (e : JsError) :
  conversationText chatHistory = Throw e -> main w req = ([], Throw e).
Proof. intros H. rewrite main_with_key, H. reflexivity. Qed.

Lemma main_bad_action (t : string) (e : JsError) :
  conversationText chatHistory = Normal t ->
  actionDescription actionKey = Throw e ->
  main w req = ([], Throw e).
Proof. intros Ht H. rewrite main_with_key, Ht, bind_Normal, H. reflexivity. Qed.

Lemma main_provider (t d : string) :
  conversationText chatHistory = Normal t ->
  actionDescription actionKey = Normal d ->
  main w req =
  ([GenerateContent key model_id (prompt d t)],
   match provider_answer w key (prompt d t) with
   | Normal text => Normal (success_response text)
   | Throw e => Throw e
   end).
Proof.
  intros Ht Hd. rewrite main_with_key, Ht, bind_Normal, Hd, bind_Normal.
  unfold call_provider, provider_answer, emit, bind, lift, cbind.
  destruct (generateContent w key model_id (prompt d t)) as [[[text|e]]|e];
    reflexivity.
Qed.
End MainPath.

(** ** The action table *)

Lemma table_resolves (k d : string) :
  In (k, d) instruction_table -> actionDescription (JStr k) = Normal d.
Proof.
  unfold instruction_table. cbn [In].
  intros [H|[H|[H|[H|[H|[]]]]]]; injection H as <- <-; reflexivity.
Qed.

Lemma outside_table (k : string) :
  table_key k = false ->
  actionDescription (JStr k) = Throw (Error ("Unknown action key: " ++ k)).
Proof.
  unfold table_key, instruction_table. cbn [map fst existsb]. intros H.
  repeat (apply orb_false_elim in H as [? H]).
  unfold actionDescription.
  repeat match goal with E : (k =? _) = false |- _ => rewrite E; clear E end.
  reflexivity.
Qed.

(** C1: for each of the five keys of the table, the instruction the switch
    of the handler resolves is, as a string, the instruction the table of
    the specification lists for it; the table has these five keys and no
    other. *)
Theorem C1_instruction_table :
  Forall (fun entry => actionDescription (JStr (fst entry)) = Normal (snd entry))
    instruction_table
  /\ map fst instruction_table =
     ["email_landlord"; "dispute_message"; "step_by_step_guide";
      "email_council"; "call_council"]
  /\ actionDescription (JStr "email_landlord")
     = Normal "Draft a polite but firm email to the landlord.".
Proof.
  split; [|split; reflexivity].
  apply Forall_forall. intros [k d] Hin. now apply table_resolves.
Qed.

(** ** The transcript *)

Lemma message_line_of (m : jsval) (st : string * string) :
  is_message m st -> message_line m = Normal (fst st ++ ": " ++ snd st).
Proof.
  intros [Hs Ht]. unfold message_line. rewrite Hs. cbn [cbind ToString].
  rewrite Ht. reflexivity.
Qed.

Lemma map_message_lines (elems : list jsval) (ms : list (string * string)) :
  Forall2 is_message elems ms ->
  Array_map message_line elems
  = Normal (map (fun st => fst st ++ ": " ++ snd st) ms).
Proof.
  induction 1 as [|m st elems ms Hm _ IH]; [reflexivity|].
  cbn [Array_map map]. rewrite (message_line_of _ _ Hm). cbn [cbind].
  rewrite IH. reflexivity.
Qed.

(** C3: for a chat history whose messages carry the strings [sender] and
    [text], the transcript is each message written [<sender>: <text>],
    joined by newlines, in the order of the input. *)
Theorem C3_transcript (elems : list jsval) (ms : list (string * string)) :
  Forall2 is_message elems ms ->
  conversationText (JArr elems) = Normal (transcript_spec ms).
Proof.
  intros H. unfold conversationText, transcript_spec.
  rewrite (map_message_lines _ _ H). cbn [cbind].
  now rewrite Array_join_concat.
Qed.

(** ** Preflight *)

(** C4, amended: a request with the method OPTIONS gets status 200, the
    body [ok] and the two cross-origin headers, whatever its body and the
    configuration; nothing is logged and the provider is not called. *)
Theorem C4_preflight (w : World) (req : Request) :
  method req = "OPTIONS" ->
  handler w req =
  ([], Normal {| body := "ok";
                 status := 200;
                 headers :=
                   [ ("Access-Control-Allow-Origin", "*");
                     ("Access-Control-Allow-Headers",
                      "authorization, x-client-info, apikey, content-type") ] |}).
Proof.
  intros H. unfold handler. rewrite H. reflexivity.
Qed.

(** ** The provider key *)

(** C5: when the provider key is absent from the configuration, a request
    whose body is valid JSON with the two fields read from it gets
    status 500 and the error message of the missing key, whatever the
    action key and the chat history. *)
Theorem C5_missing_key (w : World) (req : Request) (v actionKey chatHistory : jsval) :
  method req <> "OPTIONS" ->
  json req = Normal v ->
  destructure v = Normal (actionKey, chatHistory) ->
  env_get w "GOOGLE_AI_API_KEY" = None ->
  handler w req =
  ([error_log "Missing Google AI API Key"],
   Normal (error_response "Missing Google AI API Key")).
Proof.
  intros Hm Hj Hf Hk.
  apply (caught w req [] (Error "Missing Google AI API Key") Hm).
  apply (main_without_key w req v actionKey chatHistory Hj Hf).
  now rewrite Hk.
Qed.

(** ** Unknown actions *)

(** C2: with the key present and the transcript built, a string action key
    outside the table gets status 500 and the JSON body whose [error] is
    [Unknown action key: ] followed by the key itself; the message is
    logged, and the body reads back as that one-property object. *)
Theorem C2_unknown_action (w : World) (req : Request) (v chatHistory : jsval)
    (k key t : string) :
  method req <> "OPTIONS" ->
  json req = Normal v ->
  destructure v = Normal (JStr k, chatHistory) ->
  env_get w "GOOGLE_AI_API_KEY" = Some key -> key <> "" ->
  conversationText chatHistory = Normal t ->
  table_key k = false ->
  let msg := "Unknown action key: " ++ k in
  handler w req = ([error_log msg], Normal (error_response msg))
  /\ status (error_response msg) = 500%Z
  /\ JSON_parse (body (error_response msg)) = Some (JObj [("error", JStr msg)])
  /\ embeds k msg.
Proof.
  intros Hm Hj Hf Hk Hks Ht Hout msg. repeat split.
  - apply (caught w req [] (Error msg) Hm).
    apply (main_bad_action w req v (JStr k) chatHistory Hj Hf key Hk Hks t); trivial.
    now apply outside_table.
  - apply parse_object1.
  - exists "Unknown action key: ", "". subst msg.
    now rewrite string_app_nil_r.
Qed.

(** C9, amended: with the key present and the transcript built, an action
    key that is not a string (or is missing, hence [undefined]) and whose
    string coercion succeeds gets status 500 with the message
    [Unknown action key: ] followed by that coercion. *)
Theorem C9_non_string_action (w : World) (req : Request)
    (v actionKey chatHistory : jsval) (key t s : string) :
  method req <> "OPTIONS" ->
  json req = Normal v ->
  destructure v = Normal (actionKey, chatHistory) ->
  env_get w "GOOGLE_AI_API_KEY" = Some key -> key <> "" ->
  conversationText chatHistory = Normal t ->
  (forall k, actionKey <> JStr k) ->
  ToString actionKey = Normal s ->
  handler w req =
  ([error_log ("Unknown action key: " ++ s)],
   Normal (error_response ("Unknown action key: " ++ s))).
Proof.
  intros Hm Hj Hf Hk Hks Ht Hns Hs.
  apply (caught w req [] (Error ("Unknown action key: " ++ s)) Hm).
  apply (main_bad_action w req v actionKey chatHistory Hj Hf key Hk Hks t); trivial.
  destruct actionKey; try (now destruct (Hns s0));
    unfold actionDescription; rewrite Hs; reflexivity.
Qed.

(** ** The order of the checks *)

(** C10: the key is checked before the transcript is built and the action
    resolved, so that without a usable key the response is the one of the
    missing key whatever the action key and the chat history are; and an
    empty chat history gives the empty transcript, with which the provider
    is called. *)
Theorem C10_key_first_and_empty_history :
  (forall w req v actionKey chatHistory,
      method req <> "OPTIONS" ->
      json req = Normal v ->
      destructure v = Normal (actionKey, chatHistory) ->
      truthy (env_get w "GOOGLE_AI_API_KEY") = false ->
      main w req = ([], Throw (Error "Missing Google AI API Key"))
      /\ handler w req =
         ([error_log "Missing Google AI API Key"],
          Normal (error_response "Missing Google AI API Key")))
  /\ conversationText (JArr []) = Normal ""
  /\ (forall w req v actionKey key d,
        method req <> "OPTIONS" ->
        json req = Normal v ->
        destructure v = Normal (actionKey, JArr []) ->
        env_get w "GOOGLE_AI_API_KEY" = Some key -> key <> "" ->
        actionDescription actionKey = Normal d ->
        provider_calls (fst (handler w req)) = [(key, model_id, prompt d "")]
        /\ forall text,
            provider_answer w key (prompt d "") = Normal text ->
            handler w req =
            ([GenerateContent key model_id (prompt d "")],
             Normal (success_response text))).
Proof.
  split; [|split; [reflexivity|]].
  - intros w req v ak ch Hm Hj Hf Hk.
    pose proof (main_without_key w req v ak ch Hj Hf Hk) as Hmain.
    split; [assumption|].
    now apply (caught w req [] (Error "Missing Google AI API Key") Hm).
  - intros w req v ak key d Hm Hj Hf Hk Hks Hd.
    pose proof (main_provider w req v ak (JArr []) Hj Hf key Hk Hks "" d
                  eq_refl Hd) as Hmain.
    split.
    + destruct (provider_answer w key (prompt d "")) as [text|e].
      * now rewrite (not_caught w req _ _ Hm Hmain).
      * now rewrite (caught w req _ _ Hm Hmain).
    + intros text Htext. rewrite Htext in Hmain.
      now apply not_caught.
Qed.

(** ** Failures *)

Lemma failure_throws (w : World) (req : Request) (tr : list event) (e : JsError) :
  failure w req tr e -> main w req = (tr, Throw e).
Proof.
  intros [e' Hj | v e' Hj Hf | v [ak ch] Hj Hf Hk | v ak ch key e' Hj Hf Hk Hks Ht
         | v ak ch key t e' Hj Hf Hk Hks Ht Hd | v ak ch key t d e' Hj Hf Hk Hks Ht Hd Hp].
  - unfold main. now rewrite Hj.
  - unfold main. now rewrite Hj, bind_Normal, Hf.
  - now apply (main_without_key w req v ak ch).
  - now apply (main_bad_history w req v ak ch Hj Hf key).
  - now apply (main_bad_action w req v ak ch Hj Hf key Hk Hks t).
  - rewrite (main_provider w req v ak ch Hj Hf key Hk Hks t d Ht Hd).
    now rewrite Hp.
Qed.

Lemma truthy_inv (o : option string) :
  truthy o = true -> exists key, o = Some key /\ key <> "".
Proof.
  destruct o as [key|]; [|discriminate]. cbn [truthy]. intros H.
  exists key. split; [reflexivity|].
  apply String.eqb_neq. now destruct (key =? "").
Qed.

(** Every exception of the [try] block is one of the listed failures. *)
Lemma throws_failure (w : World) (req : Request) (tr : list event) (e : JsError) :
  main w req = (tr, Throw e) -> failure w req tr e.
Proof.
  intros Hmain.
  destruct (json req) as [v|e0] eqn:Hj.
  2:{ unfold main in Hmain. rewrite Hj in Hmain. injection Hmain as <- <-.
      now apply MalformedBody. }
  destruct (destructure v) as [[ak ch]|e0] eqn:Hf.
  2:{ unfold main in Hmain. rewrite Hj, bind_Normal, Hf in Hmain.
      injection Hmain as <- <-. now apply (InvalidBody w req v). }
  destruct (truthy (env_get w "GOOGLE_AI_API_KEY")) eqn:Hk.
  2:{ rewrite (main_without_key w req v ak ch Hj Hf Hk) in Hmain.
      injection Hmain as <- <-. now apply (MissingKey w req v (ak, ch)). }
  apply truthy_inv in Hk as (key & Hk & Hks).
  destruct (conversationText ch) as [t|e0] eqn:Ht.
  2:{ rewrite (main_bad_history w req v ak ch Hj Hf key Hk Hks e0 Ht) in Hmain.
      injection Hmain as <- <-. now apply (InvalidHistory w req v ak ch key). }
  destruct (actionDescription ak) as [d|e0] eqn:Hd.
  2:{ rewrite (main_bad_action w req v ak ch Hj Hf key Hk Hks t e0 Ht Hd) in Hmain.
      injection Hmain as <- <-. now apply (UnknownAction w req v ak ch key t). }
  rewrite (main_provider w req v ak ch Hj Hf key Hk Hks t d Ht Hd) in Hmain.
  destruct (provider_answer w key (prompt d t)) as [text|e0] eqn:Hp;
    [discriminate|].
  injection Hmain as <- <-. now apply (ProviderFailure w req v ak ch key t d).
Qed.

(** C6: every failure of the path that is not the preflight one (a body
    that is not JSON, a missing key, an unknown action, a failure of the
    provider, and the input errors met on the way) is caught: the message
    is logged after the name of the function, and the response has status
    500, the body [{ error: message }] and the two cross-origin headers
    with the JSON content type, the same for every kind of failure. *)
Theorem C6_errors_uniform (w : World) (req : Request) (tr : list event) (e : JsError) :
  method req <> "OPTIONS" ->
  failure w req tr e ->
  handler w req =
  ((tr ++ [ConsoleError ["Error in get-generated-content:"; message e]])%list,
   Normal {| body := json_object1 "error" (message e);
             status := 500;
             headers :=
               [ ("Access-Control-Allow-Origin", "*");
                 ("Access-Control-Allow-Headers",
                  "authorization, x-client-info, apikey, content-type");
                 ("Content-Type", "application/json") ] |})
  /\ JSON_parse (json_object1 "error" (message e))
     = Some (JObj [("error", JStr (message e))]).
Proof.
  intros Hm Hfail. split.
  - apply (caught w req tr e Hm). now apply failure_throws.
  - apply parse_object1.
Qed.

(** ** Success *)

(** C7: a request with a valid body and a key of the table, the key present
    and a provider that returns a text gets status 200, the cross-origin
    headers with the JSON content type, and a body that reads back as the
    object whose only property, [text], is the text of the provider. *)
Theorem C7_success (w : World) (req : Request) (v chatHistory : jsval)
    (k key t d text : string) :
  method req <> "OPTIONS" ->
  json req = Normal v ->
  destructure v = Normal (JStr k, chatHistory) ->
  env_get w "GOOGLE_AI_API_KEY" = Some key -> key <> "" ->
  conversationText chatHistory = Normal t ->
  In (k, d) instruction_table ->
  provider_answer w key (prompt d t) = Normal text ->
  exists b,
    handler w req =
    ([GenerateContent key model_id (prompt d t)],
     Normal {| body := b;
               status := 200;
               headers :=
                 [ ("Access-Control-Allow-Origin", "*");
                   ("Access-Control-Allow-Headers",
                    "authorization, x-client-info, apikey, content-type");
                   ("Content-Type", "application/json") ] |})
    /\ exists value,
         JSON_parse b = Some (JObj [("text", JStr value)])
         /\ value = text
         /\ (text <> "" -> value <> "").
Proof.
  intros Hm Hj Hf Hk Hks Ht Hin Hp.
  exists (json_object1 "text" text). split.
  - apply not_caught; [assumption|].
    rewrite (main_provider w req v (JStr k) chatHistory Hj Hf key Hk Hks t d Ht
               (table_resolves k d Hin)).
    now rewrite Hp.
  - exists text. split; [apply parse_object1 | split; trivial].
Qed.

(** ** The prompt *)

Lemma embeds_here (p post : string) : embeds p (p ++ post).
Proof. now exists "", post. Qed.

Lemma embeds_skip (p a b : string) : embeds p b -> embeds p (a ++ b).
Proof.
  intros (pre & post & ->). exists (a ++ pre), post.
  now rewrite string_app_assoc.
Qed.

Lemma embeds_line (p pre post line rest : string) :
  line = pre ++ p ++ post -> embeds p (line ++ rest).
Proof.
  intros ->. exists pre, (post ++ rest). now rewrite !string_app_assoc.
Qed.

(** C8: for a valid request the provider is called once, with the fixed
    model and one prompt; the prompt holds the persona sentence, the
    instruction resolved from the action key, the transcript, and the four
    numbered instructions (review the conversation, professional tone,
    bracketed placeholders, only the generated text). *)
Theorem C8_prompt (w : World) (req : Request) (v chatHistory : jsval)
    (k key t d : string) :
  method req <> "OPTIONS" ->
  json req = Normal v ->
  destructure v = Normal (JStr k, chatHistory) ->
  env_get w "GOOGLE_AI_API_KEY" = Some key -> key <> "" ->
  conversationText chatHistory = Normal t ->
  In (k, d) instruction_table ->
  let p := prompt d t in
  provider_calls (fst (handler w req)) = [(key, "gemini-2.5-flash", p)]
  /\ embeds "expert AI assistant providing drafting support to UK tenants" p
  /\ embeds ("Action Required: " ++ d) p
  /\ embeds ("Conversation History:" ++ LF ++ "      " ++ t) p
  /\ embeds "1. Review the entire conversation to understand the user's specific problem." p
  /\ embeds "2. Generate the requested document with a professional and appropriate tone." p
  /\ embeds ("3. Use placeholders like " ++ DQ ++ "[Your Name]" ++ DQ ++ " or "
               ++ DQ ++ "[Date]" ++ DQ ++ " where needed.") p
  /\ embeds "4. IMPORTANT: Return ONLY the generated text. Do not add any conversational intros or summaries." p.
Proof.
  intros Hm Hj Hf Hk Hks Ht Hin p.
  split; [|subst p; unfold prompt; repeat split].
  - pose proof (main_provider w req v (JStr k) chatHistory Hj Hf key Hk Hks t d Ht
                  (table_resolves k d Hin)) as Hmain.
    fold p in Hmain.
    destruct (provider_answer w key p) as [text|e].
    + now rewrite (not_caught w req _ _ Hm Hmain).
    + now rewrite (caught w req _ _ Hm Hmain).
  - apply embeds_skip.
    now apply (embeds_line _ "      You are an " ".").
  - do 6 apply embeds_skip. eexists "      ", _. reflexivity.
  - do 10 apply embeds_skip. eexists "      ", _. reflexivity.
  - do 18 apply embeds_skip. now apply (embeds_line _ "      " "").
  - do 20 apply embeds_skip. now apply (embeds_line _ "      " "").
  - do 22 apply embeds_skip. eexists "      ", _. reflexivity.
  - do 32 apply embeds_skip. now apply (embeds_line _ "      " "").
Qed.

(** ** The claims at concrete inputs *)

(** The end-to-end scenario of an unknown key. *)
Lemma C2_bogus_scenario :
  handler (world_answering (Some "secret") "unused")
    (post (payload (JStr "bogus") (JArr [])))
  = ([ConsoleError ["Error in get-generated-content:"; "Unknown action key: bogus"]],
     Normal {| body := "{" ++ DQ ++ "error" ++ DQ ++ ":"
                       ++ DQ ++ "Unknown action key: bogus" ++ DQ ++ "}";
               status := 500;
               headers :=
                 [ ("Access-Control-Allow-Origin", "*");
                   ("Access-Control-Allow-Headers",
                    "authorization, x-client-info, apikey, content-type");
                   ("Content-Type", "application/json") ] |}).
Proof.
  refine (proj1 (C2_unknown_action
                   (world_answering (Some "secret") "unused")
                   (post (payload (JStr "bogus") (JArr [])))
                   (payload (JStr "bogus") (JArr [])) (JArr [])
                   "bogus" "secret" "" _ _ _ _ _ _ _));
    first [reflexivity | discriminate].
Defined.

(** The transcript of the two-message example. *)
Lemma C3_two_messages :
  conversationText (JArr [chat_message "user" "Hi"; chat_message "bot" "Hello"])
  = Normal ("user: Hi" ++ LF ++ "bot: Hello").
Proof.
  apply (C3_transcript [chat_message "user" "Hi"; chat_message "bot" "Hello"]
           [("user", "Hi"); ("bot", "Hello")]).
  repeat constructor.
Defined.

(** A preflight request whose body is not JSON, without a key. *)
Lemma C4_preflight_any_body :
  handler (world_answering None "unused")
    {| method := "OPTIONS";
       json := Throw (mkError "SyntaxError" "Unexpected end of JSON input") |}
  = ([], Normal {| body := "ok";
                   status := 200;
                   headers :=
                     [ ("Access-Control-Allow-Origin", "*");
                       ("Access-Control-Allow-Headers",
                        "authorization, x-client-info, apikey, content-type") ] |}).
Proof.
  apply C4_preflight. reflexivity.
Defined.

(** The body of the preflight response is [ok], not the empty body. *)
Lemma C4_preflight_body_not_empty :
  ~ (exists r,
        snd (handler (world_answering (Some "secret") "unused")
               {| method := "OPTIONS"; json := Normal (JObj []) |}) = Normal r
        /\ status r = 200%Z
        /\ body r = "").
Proof.
  intros (r & Hr & _ & Hbody).
  injection Hr as <-. discriminate Hbody.
Qed.

(** A valid request without the key. *)
Lemma C5_valid_request_without_key :
  handler (world_answering None "unused")
    (post (payload (JStr "email_landlord") (JArr [chat_message "user" "Hi"])))
  = ([ConsoleError ["Error in get-generated-content:"; "Missing Google AI API Key"]],
     Normal {| body := "{" ++ DQ ++ "error" ++ DQ ++ ":"
                       ++ DQ ++ "Missing Google AI API Key" ++ DQ ++ "}";
               status := 500;
               headers :=
                 [ ("Access-Control-Allow-Origin", "*");
                   ("Access-Control-Allow-Headers",
                    "authorization, x-client-info, apikey, content-type");
                   ("Content-Type", "application/json") ] |}).
Proof.
  refine (C5_missing_key (world_answering None "unused")
            (post (payload (JStr "email_landlord") (JArr [chat_message "user" "Hi"])))
            (payload (JStr "email_landlord") (JArr [chat_message "user" "Hi"]))
            (JStr "email_landlord") (JArr [chat_message "user" "Hi"]) _ _ _ _);
    first [reflexivity | discriminate].
Defined.

(** A body that is not JSON. *)
Lemma C6_malformed_body :
  handler (world_answering (Some "secret") "unused")
    {| method := "POST";
       json := Throw (mkError "SyntaxError" "Unexpected end of JSON input") |}
  = ([ConsoleError ["Error in get-generated-content:"; "Unexpected end of JSON input"]],
     Normal {| body := "{" ++ DQ ++ "error" ++ DQ ++ ":"
                       ++ DQ ++ "Unexpected end of JSON input" ++ DQ ++ "}";
               status := 500;
               headers :=
                 [ ("Access-Control-Allow-Origin", "*");
                   ("Access-Control-Allow-Headers",
                    "authorization, x-client-info, apikey, content-type");
                   ("Content-Type", "application/json") ] |}).
Proof.
  refine (proj1 (C6_errors_uniform
                   (world_answering (Some "secret") "unused")
                   {| method := "POST";
                      json := Throw (mkError "SyntaxError" "Unexpected end of JSON input") |}
                   [] (mkError "SyntaxError" "Unexpected end of JSON input") _ _)).
  - discriminate.
  - apply MalformedBody. reflexivity.
Defined.

(** The end-to-end scenario of a drafted email. *)
Lemma C7_email_landlord_scenario :
  exists b,
    handler (world_answering (Some "secret") "Dear [Landlord Name], ...")
      (post (payload (JStr "email_landlord")
               (JArr [chat_message "user" "My landlord won't fix the heating"])))
    = ([GenerateContent "secret" model_id
          (prompt "Draft a polite but firm email to the landlord."
             "user: My landlord won't fix the heating")],
       Normal {| body := b;
                 status := 200;
                 headers :=
                   [ ("Access-Control-Allow-Origin", "*");
                     ("Access-Control-Allow-Headers",
                      "authorization, x-client-info, apikey, content-type");
                     ("Content-Type", "application/json") ] |})
    /\ exists value,
         JSON_parse b = Some (JObj [("text", JStr value)])
         /\ value = "Dear [Landlord Name], ..."
         /\ ("Dear [Landlord Name], ..." <> "" -> value <> "").
Proof.
  refine (C7_success (world_answering (Some "secret") "Dear [Landlord Name], ...")
            (post (payload (JStr "email_landlord")
                     (JArr [chat_message "user" "My landlord won't fix the heating"])))
            (payload (JStr "email_landlord")
               (JArr [chat_message "user" "My landlord won't fix the heating"]))
            (JArr [chat_message "user" "My landlord won't fix the heating"])
            "email_landlord" "secret" "user: My landlord won't fix the heating"
            "Draft a polite but firm email to the landlord."
            "Dear [Landlord Name], ..." _ _ _ _ _ _ _ _);
    first [reflexivity | discriminate | now left].
Defined.

(** The prompt of a request to the council. *)
Lemma C8_email_council_prompt :
  provider_calls
    (fst (handler (world_answering (Some "secret") "Dear Housing Team, ...")
            (post (payload (JStr "email_council")
                     (JArr [chat_message "user" "Hi"; chat_message "bot" "Hello"])))))
  = [("secret", "gemini-2.5-flash",
      prompt "Draft a formal email to the local council's housing team."
        ("user: Hi" ++ LF ++ "bot: Hello"))].
Proof.
  refine (proj1 (C8_prompt (world_answering (Some "secret") "Dear Housing Team, ...")
            (post (payload (JStr "email_council")
                     (JArr [chat_message "user" "Hi"; chat_message "bot" "Hello"])))
            (payload (JStr "email_council")
               (JArr [chat_message "user" "Hi"; chat_message "bot" "Hello"]))
            (JArr [chat_message "user" "Hi"; chat_message "bot" "Hello"])
            "email_council" "secret" ("user: Hi" ++ LF ++ "bot: Hello")
            "Draft a formal email to the local council's housing team."
            _ _ _ _ _ _ _));
    first [reflexivity | discriminate | cbn [In instruction_table]; tauto].
Defined.

(** A body without the [actionKey] field, and action keys of each other
    kind: [null], a boolean, the numbers 10^21 and 1.5, an array, an
    object. *)
Lemma C9_missing_action_key :
  handler (world_answering (Some "secret") "unused")
    (post (JObj [("chatHistory", JArr [])]))
  = ([ConsoleError ["Error in get-generated-content:"; "Unknown action key: undefined"]],
     Normal {| body := "{" ++ DQ ++ "error" ++ DQ ++ ":"
                       ++ DQ ++ "Unknown action key: undefined" ++ DQ ++ "}";
               status := 500;
               headers :=
                 [ ("Access-Control-Allow-Origin", "*");
                   ("Access-Control-Allow-Headers",
                    "authorization, x-client-info, apikey, content-type");
                   ("Content-Type", "application/json") ] |})
  /\ handler (world_answering (Some "secret") "unused")
       (post (payload JNull (JArr [])))
     = ([error_log "Unknown action key: null"],
        Normal (error_response "Unknown action key: null"))
  /\ handler (world_answering (Some "secret") "unused")
       (post (payload (JBool true) (JArr [])))
     = ([error_log "Unknown action key: true"],
        Normal (error_response "Unknown action key: true"))
  /\ handler (world_answering (Some "secret") "unused")
       (post (payload (JNum (Finite false 1 22)) (JArr [])))
     = ([error_log "Unknown action key: 1e+21"],
        Normal (error_response "Unknown action key: 1e+21"))
  /\ handler (world_answering (Some "secret") "unused")
       (post (payload (JNum (Finite false 15 1)) (JArr [])))
     = ([error_log "Unknown action key: 1.5"],
        Normal (error_response "Unknown action key: 1.5"))
  /\ handler (world_answering (Some "secret") "unused")
       (post (payload (JArr [JNum (integer 1); JNull; JStr "a"]) (JArr [])))
     = ([error_log "Unknown action key: 1,,a"],
        Normal (error_response "Unknown action key: 1,,a"))
  /\ handler (world_answering (Some "secret") "unused")
       (post (payload (JObj [("name", JStr "email_landlord")]) (JArr [])))
     = ([error_log "Unknown action key: [object Object]"],
        Normal (error_response "Unknown action key: [object Object]")).
Proof.
  split.
  { refine (C9_non_string_action (world_answering (Some "secret") "unused")
              (post (JObj [("chatHistory", JArr [])]))
              (JObj [("chatHistory", JArr [])]) JUndefined (JArr [])
              "secret" "" "undefined" _ _ _ _ _ _ _ _);
      first [reflexivity | discriminate]. }
  pose proof (fun ak s =>
                C9_non_string_action (world_answering (Some "secret") "unused")
                  (post (payload ak (JArr []))) (payload ak (JArr []))
                  ak (JArr []) "secret" "" s) as coerced.
  split; [apply (coerced JNull "null"); first [reflexivity | discriminate]|].
  split; [apply (coerced (JBool true) "true"); first [reflexivity | discriminate]|].
  split; [apply (coerced (JNum (Finite false 1 22)) "1e+21");
          first [reflexivity | discriminate]|].
  split; [apply (coerced (JNum (Finite false 15 1)) "1.5");
          first [reflexivity | discriminate]|].
  split; [apply (coerced (JArr [JNum (integer 1); JNull; JStr "a"]) "1,,a");
          first [reflexivity | discriminate]|].
  apply (coerced (JObj [("name", JStr "email_landlord")]) "[object Object]");
    first [reflexivity | discriminate].
Defined.

(** An action key that is an object with an own [toString] property: the
    coercion of the [default] branch throws, and the error of the response
    is the one of the coercion, not the one of an unknown action. *)
Lemma C9_object_hiding_toString :
  conversationText (JArr []) = Normal ""
  /\ snd (handler (world_answering (Some "secret") "unused")
            (post (payload (JObj [("toString", JNum (integer 1))]) (JArr []))))
     = Normal (error_response "Cannot convert object to primitive value")
  /\ ~ (exists s,
          snd (handler (world_answering (Some "secret") "unused")
                 (post (payload (JObj [("toString", JNum (integer 1))]) (JArr []))))
          = Normal (error_response ("Unknown action key: " ++ s))).
Proof.
  split; [reflexivity|split; [reflexivity|]].
  intros (s & H). discriminate H.
Qed.

(** Without the key, an unknown action key and a chat history that is not
    an array still give the error of the missing key; with the key, an
    empty chat history reaches the provider. *)
Lemma C10_key_first_scenarios :
  handler (world_answering None "unused") (post (payload (JStr "bogus") JNull))
  = ([error_log "Missing Google AI API Key"],
     Normal (error_response "Missing Google AI API Key"))
  /\ actionDescription (JStr "bogus") = Throw (Error "Unknown action key: bogus")
  /\ conversationText JNull
     = Throw (TypeError "Cannot read properties of null (reading 'map')")
  /\ handler (world_answering (Some "secret") "Step 1 ...")
       (post (payload (JStr "step_by_step_guide") (JArr [])))
     = ([GenerateContent "secret" model_id
           (prompt "Create a simple, step-by-step guide on how to proceed." "")],
        Normal (success_response "Step 1 ...")).
Proof.
  split; [|split; [reflexivity|split; [reflexivity|]]].
  - refine (proj2 (proj1 C10_key_first_and_empty_history
                     (world_answering None "unused")
                     (post (payload (JStr "bogus") JNull))
                     (payload (JStr "bogus") JNull) (JStr "bogus") JNull _ _ _ _));
      first [reflexivity | discriminate].
  - refine (proj2 (proj2 (proj2 C10_key_first_and_empty_history)
                     (world_answering (Some "secret") "Step 1 ...")
                     (post (payload (JStr "step_by_step_guide") (JArr [])))
                     (payload (JStr "step_by_step_guide") (JArr []))
                     (JStr "step_by_step_guide") "secret"
                     "Create a simple, step-by-step guide on how to proceed."
                     _ _ _ _ _ _) "Step 1 ..." _);
      first [reflexivity | discriminate].
Defined.

(** * Further properties of the handler *)

(** ** The two outcomes of the main path *)

Lemma main_outcome (w : World) (req : Request) :
  (exists tr e, main w req = (tr, Throw e) /\ failure w req tr e)
  \/ (exists key d t text,
        reaches_provider w req key d t
        /\ provider_answer w key (prompt d t) = Normal text
        /\ main w req =
           ([GenerateContent key model_id (prompt d t)],
            Normal (success_response text))).
Proof.
  destruct (main w req) as [tr [r|e]] eqn:Hmain.
  2:{ left. exists tr, e. split; [reflexivity | now apply throws_failure]. }
  right.
  destruct (json req) as [v|e0] eqn:Hj.
  2:{ unfold main in Hmain. now rewrite Hj in Hmain. }
  destruct (destructure v) as [[ak ch]|e0] eqn:Hf.
  2:{ unfold main in Hmain. now rewrite Hj, bind_Normal, Hf in Hmain. }
  destruct (truthy (env_get w "GOOGLE_AI_API_KEY")) eqn:Hk.
  2:{ now rewrite (main_without_key w req v ak ch Hj Hf Hk) in Hmain. }
  apply truthy_inv in Hk as (key & Hk & Hks).
  destruct (conversationText ch) as [t|e0] eqn:Ht.
  2:{ now rewrite (main_bad_history w req v ak ch Hj Hf key Hk Hks e0 Ht) in Hmain. }
  destruct (actionDescription ak) as [d|e0] eqn:Hd.
  2:{ now rewrite (main_bad_action w req v ak ch Hj Hf key Hk Hks t e0 Ht Hd) in Hmain. }
  rewrite (main_provider w req v ak ch Hj Hf key Hk Hks t d Ht Hd) in Hmain.
  destruct (provider_answer w key (prompt d t)) as [text|e0] eqn:Hp;
    [|discriminate].
  injection Hmain as <- <-.
  exists key, d, t, text. split; [|split; trivial].
  now exists v, ak, ch.
Qed.

(** The events before a failure: none, or the one provider call. *)
Lemma failure_trace (w : World) (req : Request) (tr : list event) (e : JsError) :
  failure w req tr e ->
  tr = []
  \/ exists key d t,
       reaches_provider w req key d t
       /\ tr = [GenerateContent key model_id (prompt d t)].
Proof.
  intros [ | | | | | v ak ch key t d e' Hj Hf Hk Hks Ht Hd Hp]; try now left.
  right. exists key, d, t. split; [|reflexivity]. now exists v, ak, ch.
Qed.

Lemma console_errors_app (a b : list event) :
  console_errors (a ++ b) = (console_errors a ++ console_errors b)%list.
Proof.
  induction a as [|[k m p|args] a IH]; cbn [console_errors app];
    [reflexivity | assumption | now rewrite IH].
Qed.

Lemma provider_calls_app (a b : list event) :
  provider_calls (a ++ b) = (provider_calls a ++ provider_calls b)%list.
Proof.
  induction a as [|[k m p|args] a IH]; cbn [provider_calls app];
    [reflexivity | now rewrite IH | assumption].
Qed.

(** Only a key of the table resolves to an instruction. *)
Lemma resolves_in_table (ak : jsval) (d : string) :
  actionDescription ak = Normal d ->
  exists k, ak = JStr k /\ In (k, d) instruction_table /\ table_key k = true.
Proof.
  intros H.
  assert (Hdefault : forall x : jsval,
             cbind (ToString x)
               (fun s => Throw (Error ("Unknown action key: " ++ s)))
             <> Normal d).
  { intros x. now destruct (ToString x). }
  destruct ak as [| | b | n | k | l | props];
    try (now apply Hdefault in H).
  exists k. split; [reflexivity|].
  unfold actionDescription in H. unfold table_key, instruction_table.
  cbn [map fst existsb In].
  destruct (String.eqb_spec k "email_landlord") as [->|_];
    [injection H as <-; split; [tauto | reflexivity]|].
  destruct (String.eqb_spec k "dispute_message") as [->|_];
    [injection H as <-; split; [tauto | reflexivity]|].
  destruct (String.eqb_spec k "step_by_step_guide") as [->|_];
    [injection H as <-; split; [tauto | reflexivity]|].
  destruct (String.eqb_spec k "email_council") as [->|_];
    [injection H as <-; split; [tauto | reflexivity]|].
  destruct (String.eqb_spec k "call_council") as [->|_];
    [injection H as <-; split; [tauto | reflexivity]|].
  now apply Hdefault in H.
Qed.

(** ** What every response looks like *)

Lemma preflight_response (w : World) (req : Request) :
  method req = "OPTIONS" ->
  handler w req = ([], Normal (new_Response (Some "ok") corsHeaders None)).
Proof.
  intros H. unfold handler. now rewrite H.
Qed.

(** X1: a response with status 200 to a request that is not a preflight
    is never made up: the main path got as far as the provider, the one
    event is the call of the provider with the prompt of this request, the
    provider returned a text, and the body is that text as the [text]
    property. *)
Theorem X1_success_only_from_provider (w : World) (req : Request)
    (tr : list event) (r : Response) :
  method req <> "OPTIONS" ->
  handler w req = (tr, Normal r) ->
  status r = 200%Z ->
  exists key d t text,
    reaches_provider w req key d t
    /\ provider_answer w key (prompt d t) = Normal text
    /\ tr = [GenerateContent key "gemini-2.5-flash" (prompt d t)]
    /\ body r = json_object1 "text" text.
Proof.
  intros Hm Hh Hs.
  destruct (main_outcome w req)
    as [(tr' & e & Hmain & _) | (key & d & t & text & Hreach & Hp & Hmain)].
  - rewrite (caught w req tr' e Hm Hmain) in Hh.
    injection Hh as <- <-. discriminate Hs.
  - rewrite (not_caught w req _ _ Hm Hmain) in Hh.
    injection Hh as <- <-. now exists key, d, t, text.
Qed.

(** X2: a response to a request that is not a preflight carries the three
    headers and is one of two shapes, each a JSON object with one string
    property: status 200 with [text], and then nothing was logged; or
    status 500 with [error], and then [console.error] was called once,
    with the message of the body. *)
Theorem X2_status_body_log (w : World) (req : Request) :
  method req <> "OPTIONS" ->
  exists tr r,
    handler w req = (tr, Normal r)
    /\ headers r =
       [ ("Access-Control-Allow-Origin", "*");
         ("Access-Control-Allow-Headers",
          "authorization, x-client-info, apikey, content-type");
         ("Content-Type", "application/json") ]
    /\ ((exists text,
           status r = 200%Z
           /\ body r = json_object1 "text" text
           /\ JSON_parse (body r) = Some (JObj [("text", JStr text)])
           /\ console_errors tr = [])
        \/ (exists msg,
              status r = 500%Z
              /\ body r = json_object1 "error" msg
              /\ JSON_parse (body r) = Some (JObj [("error", JStr msg)])
              /\ console_errors tr = [["Error in get-generated-content:"; msg]])).
Proof.
  intros Hm.
  destruct (main_outcome w req)
    as [(tr & e & Hmain & Hfail) | (key & d & t & text & _ & _ & Hmain)].
  - eexists _, _. split; [now apply (caught w req tr e)|].
    split; [reflexivity|]. right. exists (message e).
    split; [reflexivity|]. split; [reflexivity|].
    split; [apply parse_object1|].
    rewrite console_errors_app.
    destruct (failure_trace w req tr e Hfail) as [->|(k' & d' & t' & _ & ->)];
      reflexivity.
  - eexists _, _. split; [now apply (not_caught w req _ _ Hm Hmain)|].
    split; [reflexivity|]. left. exists text.
    split; [reflexivity|]. split; [reflexivity|].
    split; [apply parse_object1 | reflexivity].
Qed.

(** ** The provider call *)

(** X3: whenever the provider is called, it is called once in the request,
    with the key of the configuration (which is not empty), the fixed
    model, and a prompt made of an instruction of the table and the
    transcript of the chat history of the request. *)
Theorem X3_provider_call (w : World) (req : Request) (k m p : string) :
  In (k, m, p) (provider_calls (fst (handler w req))) ->
  provider_calls (fst (handler w req)) = [(k, m, p)]
  /\ env_get w "GOOGLE_AI_API_KEY" = Some k
  /\ k <> ""
  /\ m = "gemini-2.5-flash"
  /\ exists action d t,
       In (action, d) instruction_table
       /\ reaches_provider w req k d t
       /\ p = prompt d t.
Proof.
  intros Hin.
  destruct (String.eqb_spec (method req) "OPTIONS") as [Hm|Hm].
  { rewrite (preflight_response w req Hm) in Hin. destruct Hin. }
  assert (Hcall : exists key d t,
             reaches_provider w req key d t
             /\ provider_calls (fst (handler w req))
                = [(key, model_id, prompt d t)]).
  { destruct (main_outcome w req)
      as [(tr & e & Hmain & Hfail) | (key & d & t & text & Hreach & _ & Hmain)].
    - rewrite (caught w req tr e Hm Hmain) in Hin |- *.
      cbn [fst] in Hin |- *. rewrite provider_calls_app in Hin |- *.
      destruct (failure_trace w req tr e Hfail) as [->|(key & d & t & Hreach & ->)].
      + destruct Hin.
      + now exists key, d, t.
    - rewrite (not_caught w req _ _ Hm Hmain). now exists key, d, t. }
  destruct Hcall as (key & d & t & Hreach & Hcalls).
  rewrite Hcalls in Hin |- *. destruct Hin as [Heq|[]].
  injection Heq as <- <- <-.
  pose proof Hreach as (v & ak & ch & _ & _ & Hk & Hks & _ & Hd).
  apply resolves_in_table in Hd as (action & _ & Htable & _).
  repeat split; trivial. now exists action, d, t.
Qed.

(** ** Edge cases of the input *)

(** X4: a key that is set to the empty string counts as missing: the
    request fails with the error of the missing key, as if the variable
    were not set. *)
Theorem X4_empty_key_is_missing (w : World) (req : Request)
    (v actionKey chatHistory : jsval) :
  method req <> "OPTIONS" ->
  json req = Normal v ->
  destructure v = Normal (actionKey, chatHistory) ->
  env_get w "GOOGLE_AI_API_KEY" = Some "" ->
  handler w req =
  ([error_log "Missing Google AI API Key"],
   Normal (error_response "Missing Google AI API Key")).
Proof.
  intros Hm Hj Hf Hk.
  apply (caught w req [] (Error "Missing Google AI API Key") Hm).
  apply (main_without_key w req v actionKey chatHistory Hj Hf).
  now rewrite Hk.
Qed.

Lemma not_array_throws (ch : jsval) :
  is_array ch = false ->
  exists e, conversationText ch = Throw e /\ name e = "TypeError".
Proof.
  destruct ch; try discriminate; intros _; eexists; split; reflexivity.
Qed.

(** X5: a chat history that is not an array (missing, [null], a string, a
    number, an object) is not rejected by a check of its own: with the key
    set, the call of [map] fails with a TypeError, whose message is the
    error of the 500 response; the provider is not called. *)
Theorem X5_history_not_an_array (w : World) (req : Request)
    (v actionKey chatHistory : jsval) (key : string) :
  method req <> "OPTIONS" ->
  json req = Normal v ->
  destructure v = Normal (actionKey, chatHistory) ->
  env_get w "GOOGLE_AI_API_KEY" = Some key -> key <> "" ->
  is_array chatHistory = false ->
  exists e,
    name e = "TypeError"
    /\ conversationText chatHistory = Throw e
    /\ handler w req = ([error_log (message e)], Normal (error_response (message e))).
Proof.
  intros Hm Hj Hf Hk Hks Harr.
  destruct (not_array_throws chatHistory Harr) as (e & He & Hname).
  exists e. split; [assumption|]. split; [assumption|].
  apply (caught w req [] e Hm).
  now apply (main_bad_history w req v actionKey chatHistory Hj Hf key).
Qed.

Lemma ToString_error (x : jsval) :
  forall e, ToString x = Throw e -> name e = "TypeError".
Proof.
  revert x. fix IH 1. intros [| | b | n | s | elems | props] e H.
  - discriminate.
  - discriminate.
  - destruct b; discriminate.
  - discriminate.
  - discriminate.
  - cbn [ToString] in H. revert e H.
    induction elems as [|x rest IHrest]; intros e H; [discriminate|].
    set (head := match x with
                 | JUndefined | JNull => Normal ""
                 | _ => ToString x
                 end) in H.
    assert (Hhead : forall e', head = Throw e' -> name e' = "TypeError").
    { intros e' He'. apply (IH x e'). subst head.
      destruct x; try discriminate; exact He'. }
    destruct head as [sx|ex]; cbn [cbind] in H.
    + destruct rest as [|y rest']; [discriminate|].
      match type of H with
      | cbind ?c _ = _ => destruct c as [r|er] eqn:Hrest
      end; cbn [cbind] in H; [discriminate|].
      injection H as <-. now apply IHrest.
    + injection H as <-. now apply Hhead.
  - cbn [ToString] in H. destruct (own_property "toString" props); [|discriminate].
    now injection H as <-.
Qed.

Lemma message_line_error (m : jsval) (e : JsError) :
  message_line m = Throw e -> name e = "TypeError".
Proof.
  unfold message_line. intros H.
  destruct (Get m "sender") as [sender|e1] eqn:Hs; cbn [cbind] in H.
  2:{ injection H as <-. destruct m; try discriminate;
        [now injection Hs as <- .. | cbn [Get] in Hs;
         destruct (own_property "sender" props); discriminate]. }
  destruct (ToString sender) as [s|e1] eqn:Hss; cbn [cbind] in H.
  2:{ injection H as <-. now apply (ToString_error sender). }
  destruct (Get m "text") as [text|e1] eqn:Ht; cbn [cbind] in H.
  2:{ injection H as <-. destruct m; try discriminate;
        cbn [Get] in Ht; destruct (own_property "text" props); discriminate. }
  destruct (ToString text) as [t|e1] eqn:Htt; cbn [cbind] in H; [discriminate|].
  injection H as <-. now apply (ToString_error text).
Qed.

Lemma Array_map_app {A B} (f : A -> Completion B) (a b : list A) :
  Array_map f (a ++ b) =
  cbind (Array_map f a) (fun ya =>
  cbind (Array_map f b) (fun yb => Normal (ya ++ yb)%list)).
Proof.
  induction a as [|x a IH]; cbn [Array_map app cbind].
  - now destruct (Array_map f b).
  - destruct (f x) as [y|e]; cbn [cbind]; [|reflexivity].
    rewrite IH. destruct (Array_map f a) as [ya|e]; cbn [cbind]; [|reflexivity].
    now destruct (Array_map f b).
Qed.

Lemma Array_map_length {A B} (f : A -> Completion B) (l : list A) (ys : list B) :
  Array_map f l = Normal ys -> List.length ys = List.length l.
Proof.
  revert ys. induction l as [|x l IH]; cbn [Array_map]; intros ys H.
  - now injection H as <-.
  - destruct (f x) as [y|e]; cbn [cbind] in H; [|discriminate].
    destruct (Array_map f l) as [ys'|e]; cbn [cbind] in H; [|discriminate].
    injection H as <-. cbn [List.length]. now rewrite (IH ys').
Qed.

Lemma Array_join_app (sep : string) (a b : list string) :
  a <> [] -> b <> [] ->
  Array_join sep (a ++ b) = Array_join sep a ++ sep ++ Array_join sep b.
Proof.
  intros Ha Hb. induction a as [|x a IH]; [contradiction|].
  destruct a as [|y a].
  - destruct b as [|z b]; [contradiction|]. reflexivity.
  - change (x ++ sep ++ Array_join sep ((y :: a) ++ b)
            = (x ++ sep ++ Array_join sep (y :: a)) ++ sep ++ Array_join sep b).
    rewrite IH by discriminate. now rewrite !string_app_assoc.
Qed.

Lemma Array_map_throws_at {A B} (f : A -> Completion B) (l : list A) (x : A) :
  In x l -> (exists e, f x = Throw e) -> exists e, Array_map f l = Throw e.
Proof.
  intros Hin (ex & Hx). induction l as [|y l IH]; [destruct Hin|].
  cbn [Array_map]. destruct (f y) as [fy|e] eqn:Hy; cbn [cbind]; [|now exists e].
  destruct Hin as [->|Hin]; [congruence|].
  destruct (IH Hin) as (e & ->). now exists e.
Qed.

Lemma Array_map_error (l : list jsval) (e : JsError) :
  Array_map message_line l = Throw e -> name e = "TypeError".
Proof.
  induction l as [|m l IH]; cbn [Array_map]; intros H; [discriminate|].
  destruct (message_line m) as [s|e1] eqn:Hm; cbn [cbind] in H.
  - destruct (Array_map message_line l) as [ys|e2]; cbn [cbind] in H;
      [discriminate|]. injection H as <-. now apply IH.
  - injection H as <-. now apply (message_line_error m).
Qed.

(** X6: one [null] element anywhere in the chat history makes the building
    of the transcript throw a TypeError, so that, with the key set, the
    request fails with status 500 and the provider is not called. *)
Theorem X6_null_message (w : World) (req : Request) (v actionKey : jsval)
    (elems : list jsval) (key : string) :
  method req <> "OPTIONS" ->
  json req = Normal v ->
  destructure v = Normal (actionKey, JArr elems) ->
  env_get w "GOOGLE_AI_API_KEY" = Some key -> key <> "" ->
  In JNull elems ->
  exists e,
    name e = "TypeError"
    /\ conversationText (JArr elems) = Throw e
    /\ handler w req = ([error_log (message e)], Normal (error_response (message e))).
Proof.
  intros Hm Hj Hf Hk Hks Hin.
  destruct (Array_map_throws_at message_line elems JNull Hin) as (e & He).
  { eexists. reflexivity. }
  assert (Hconv : conversationText (JArr elems) = Throw e).
  { unfold conversationText. now rewrite He. }
  exists e. split; [now apply (Array_map_error elems)|]. split; [assumption|].
  apply (caught w req [] e Hm).
  now apply (main_bad_history w req v actionKey (JArr elems) Hj Hf key).
Qed.

(** X7: the transcript of two non-empty histories put end to end is the
    two transcripts joined by a newline. *)
Theorem X7_transcript_append (a b : list jsval) (ta tb : string) :
  a <> [] -> b <> [] ->
  conversationText (JArr a) = Normal ta ->
  conversationText (JArr b) = Normal tb ->
  conversationText (JArr (a ++ b)) = Normal (ta ++ LF ++ tb).
Proof.
  unfold conversationText. intros Ha Hb HA HB. rewrite Array_map_app.
  destruct (Array_map message_line a) as [la|e] eqn:Ea; [|discriminate].
  destruct (Array_map message_line b) as [lb|e] eqn:Eb; [|discriminate].
  cbn [cbind] in *. injection HA as <-. injection HB as <-.
  rewrite Array_join_app; [reflexivity | |].
  - intros ->. apply Array_map_length in Ea. now destruct a.
  - intros ->. apply Array_map_length in Eb. now destruct b.
Qed.

Lemma fieldless_line (m : jsval) :
  fieldless m = true -> message_line m = Normal "undefined: undefined".
Proof.
  destruct m as [| | b | n | s | l | props]; try discriminate; try reflexivity.
  cbn [fieldless]. unfold message_line. cbn [Get].
  destruct (own_property "sender" props); [discriminate|].
  destruct (own_property "text" props); [discriminate|]. reflexivity.
Qed.

(** X8: the elements of the chat history are not checked to be messages:
    a number, a boolean, a string, an array or an object without [sender]
    and [text] is accepted and gives the line [undefined: undefined]. *)
Theorem X8_fieldless_elements (elems : list jsval) :
  forallb fieldless elems = true ->
  conversationText (JArr elems)
  = Normal (Array_join LF (map (fun _ => "undefined: undefined") elems)).
Proof.
  intros H. unfold conversationText.
  assert (Hmap : Array_map message_line elems
                 = Normal (map (fun _ => "undefined: undefined") elems)).
  { induction elems as [|m l IH]; [reflexivity|].
    cbn [forallb] in H. apply andb_prop in H as [Hm Hl].
    cbn [Array_map map]. rewrite (fieldless_line m Hm). cbn [cbind].
    now rewrite (IH Hl). }
  now rewrite Hmap.
Qed.

(** ** What the response depends on *)

(** X9: apart from the preflight, the method plays no part: two requests
    as the runtime delivers them, whose methods are not OPTIONS and for
    which [req.json()] gives the same result, get the same response, with
    the same events. *)
Theorem X9_method_agnostic (w : World) (req1 req2 : Request) :
  deliverable req1 ->
  deliverable req2 ->
  method req1 <> "OPTIONS" ->
  method req2 <> "OPTIONS" ->
  json req1 = json req2 ->
  handler w req1 = handler w req2.
Proof.
  intros _ _ H1 H2 Hj. rewrite !not_preflight by assumption.
  unfold main. now rewrite Hj.
Qed.

(** X10: of a parsed body only the two fields count: two requests whose
    bodies give the same [actionKey] and [chatHistory] get the same
    response, whatever else the bodies hold. *)
Theorem X10_only_two_fields (w : World) (req1 req2 : Request) (v1 v2 : jsval)
    (fields : jsval * jsval) :
  method req1 <> "OPTIONS" ->
  method req2 <> "OPTIONS" ->
  json req1 = Normal v1 ->
  json req2 = Normal v2 ->
  destructure v1 = Normal fields ->
  destructure v2 = Normal fields ->
  handler w req1 = handler w req2.
Proof.
  intros H1 H2 Hj1 Hj2 Hf1 Hf2. rewrite !not_preflight by assumption.
  unfold main. now rewrite Hj1, Hj2, !bind_Normal, Hf1, Hf2.
Qed.

(** ** The switch *)

(** X11: the switch resolves nothing but the five keys: an action key that
    gets an instruction is a string, equal to a key of the table, and the
    instruction is the one of that key. *)
Theorem X11_only_table_keys (actionKey : jsval) (d : string) :
  actionDescription actionKey = Normal d ->
  exists k,
    actionKey = JStr k /\ In (k, d) instruction_table /\ table_key k = true.
Proof.
  apply resolves_in_table.
Qed.

(** X12: a request whose action key is not a key of the table never gets
    to the provider and never succeeds: whatever the key of the
    configuration and the chat history are, the provider is not called
    and the status is 500. *)
Theorem X12_unknown_action_stops (w : World) (req : Request)
    (v actionKey chatHistory : jsval) :
  method req <> "OPTIONS" ->
  json req = Normal v ->
  destructure v = Normal (actionKey, chatHistory) ->
  (forall k, actionKey = JStr k -> table_key k = false) ->
  provider_calls (fst (handler w req)) = []
  /\ exists r, snd (handler w req) = Normal r /\ status r = 500%Z.
Proof.
  intros Hm Hj Hf Hout.
  assert (Hno : forall key d t, ~ reaches_provider w req key d t).
  { intros key d t (v' & ak & ch & Hj' & Hf' & _ & _ & _ & Hd).
    rewrite Hj in Hj'. injection Hj' as <-.
    rewrite Hf in Hf'. injection Hf' as <- <-.
    apply resolves_in_table in Hd as (k & -> & _ & Hk).
    rewrite (Hout k eq_refl) in Hk. discriminate. }
  destruct (main_outcome w req)
    as [(tr & e & Hmain & Hfail) | (key & d & t & text & Hreach & _)].
  - rewrite (caught w req tr e Hm Hmain). cbn [fst snd].
    destruct (failure_trace w req tr e Hfail) as [->|(key & d & t & Hreach & _)].
    + split; [reflexivity|]. now eexists.
    + now destruct (Hno key d t).
  - now destruct (Hno key d t).
Qed.

(** X13: a request that is answered without a call of the provider gets
    the same answer whatever the provider is: the response and the log
    depend on the provider only through the one call. *)
Theorem X13_independent_of_provider (w w' : World) (req : Request) :
  env_get w' "GOOGLE_AI_API_KEY" = env_get w "GOOGLE_AI_API_KEY" ->
  provider_calls (fst (handler w req)) = [] ->
  handler w' req = handler w req.
Proof.
  intros Henv Hnone.
  destruct (String.eqb_spec (method req) "OPTIONS") as [Hm|Hm].
  { now rewrite !preflight_response. }
  destruct (main_outcome w req)
    as [(tr & e & Hmain & Hfail) | (key & d & t & text & _ & _ & Hmain)].
  2:{ rewrite (not_caught w req _ _ Hm Hmain) in Hnone. discriminate. }
  rewrite (caught w req tr e Hm Hmain) in Hnone |- *.
  cbn [fst] in Hnone. rewrite provider_calls_app in Hnone.
  apply (caught w' req tr e Hm). apply failure_throws.
  destruct Hfail as [e Hj | v e Hj Hf | v fields Hj Hf Hk | v ak ch key e Hj Hf Hk Hks Ht
                    | v ak ch key t e Hj Hf Hk Hks Ht Hd
                    | v ak ch key t d e Hj Hf Hk Hks Ht Hd Hp].
  - now apply MalformedBody.
  - now apply (InvalidBody w' req v).
  - apply (MissingKey w' req v fields); trivial. now rewrite Henv.
  - apply (InvalidHistory w' req v ak ch key); trivial. now rewrite Henv.
  - apply (UnknownAction w' req v ak ch key t); trivial. now rewrite Henv.
  - discriminate Hnone.
Qed.

(** ** The prompt *)

Lemma string_app_inv_head (a x y : string) : a ++ x = a ++ y -> x = y.
Proof.
  induction a as [|c a IH]; cbn [String.append]; intros H; [assumption|].
  injection H as H. now apply IH.
Qed.

Lemma string_app_length (a b : string) :
  String.length (a ++ b) = String.length a + String.length b.
Proof.
  induction a as [|c a IH]; cbn [String.append String.length];
    [reflexivity | now rewrite IH].
Qed.

Lemma string_app_inv_tail (a x y : string) : x ++ a = y ++ a -> x = y.
Proof.
  revert y. induction x as [|c x IH]; intros [|c' y] H.
  - reflexivity.
  - apply (f_equal String.length) in H.
    cbn [String.append String.length] in H. rewrite string_app_length in H.
    exfalso. clear -H. induction (String.length a) as [|n IHn].
    + rewrite PeanoNat.Nat.add_0_r in H. discriminate.
    + rewrite <- plus_n_Sm in H. injection H as H. now apply IHn.
  - apply (f_equal String.length) in H.
    cbn [String.append String.length] in H. rewrite string_app_length in H.
    exfalso. clear -H. induction (String.length a) as [|n IHn].
    + rewrite PeanoNat.Nat.add_0_r in H. discriminate.
    + rewrite <- plus_n_Sm in H. injection H as H. now apply IHn.
  - cbn [String.append] in H. injection H as -> H. now rewrite (IH y H).
Qed.

(** X14: the prompt keeps its two parts whole: for one instruction, two
    different transcripts give two different prompts, and for one
    transcript, two different instructions give two different prompts. *)
Theorem X14_prompt_injective (d d' t t' : string) :
  (t <> t' -> prompt d t <> prompt d t')
  /\ (d <> d' -> prompt d t <> prompt d' t).
Proof.
  unfold prompt. split; intros Hneq H; apply Hneq.
  - do 13 apply string_app_inv_head in H.
    now apply string_app_inv_tail in H.
  - do 7 apply string_app_inv_head in H.
    now apply string_app_inv_tail in H.
Qed.

(** ** The body comes first *)

(** X15: the body is read before the configuration: when [req.json()]
    throws, or the parsed body cannot be destructured, the response carries
    that exception's message whatever the configuration and the provider
    are, also when the key is missing. *)
Theorem X15_body_errors_first (w : World) (req : Request) (e : JsError) :
  method req <> "OPTIONS" ->
  json req = Throw e
  \/ (exists v, json req = Normal v /\ destructure v = Throw e) ->
  handler w req = ([error_log (message e)], Normal (error_response (message e))).
Proof.
  intros Hm [Hj|(v & Hj & Hf)]; apply (caught w req [] e Hm); apply failure_throws.
  - now apply MalformedBody.
  - now apply (InvalidBody w req v).
Qed.

(** ** The further properties at concrete inputs *)

Lemma X1_drafted_email :
  exists key d t text,
    reaches_provider (world_answering (Some "secret") "Dear [Landlord Name], ...")
      (post (payload (JStr "email_landlord") (JArr [chat_message "user" "Hi"])))
      key d t
    /\ provider_answer (world_answering (Some "secret") "Dear [Landlord Name], ...")
         key (prompt d t) = Normal text
    /\ [GenerateContent "secret" model_id
          (prompt "Draft a polite but firm email to the landlord." "user: Hi")]
       = [GenerateContent key "gemini-2.5-flash" (prompt d t)]
    /\ body (success_response "Dear [Landlord Name], ...") = json_object1 "text" text.
Proof.
  refine (X1_success_only_from_provider
            (world_answering (Some "secret") "Dear [Landlord Name], ...")
            (post (payload (JStr "email_landlord") (JArr [chat_message "user" "Hi"])))
            [GenerateContent "secret" model_id
               (prompt "Draft a polite but firm email to the landlord." "user: Hi")]
            (success_response "Dear [Landlord Name], ...") _ _ _);
    first [reflexivity | discriminate].
Defined.

Lemma X2_unknown_key_shape :
  exists tr r,
    handler (world_answering (Some "secret") "unused")
      (post (payload (JStr "bogus") (JArr []))) = (tr, Normal r)
    /\ headers r =
       [ ("Access-Control-Allow-Origin", "*");
         ("Access-Control-Allow-Headers",
          "authorization, x-client-info, apikey, content-type");
         ("Content-Type", "application/json") ]
    /\ ((exists text,
           status r = 200%Z
           /\ body r = json_object1 "text" text
           /\ JSON_parse (body r) = Some (JObj [("text", JStr text)])
           /\ console_errors tr = [])
        \/ (exists msg,
              status r = 500%Z
              /\ body r = json_object1 "error" msg
              /\ JSON_parse (body r) = Some (JObj [("error", JStr msg)])
              /\ console_errors tr = [["Error in get-generated-content:"; msg]])).
Proof.
  apply X2_status_body_log. discriminate.
Defined.

Lemma X3_call_of_a_valid_request :
  provider_calls
    (fst (handler (world_answering (Some "secret") "Dear ...")
            (post (payload (JStr "email_landlord") (JArr [chat_message "user" "Hi"])))))
  = [("secret", "gemini-2.5-flash",
      prompt "Draft a polite but firm email to the landlord." "user: Hi")]
  /\ env_get (world_answering (Some "secret") "Dear ...") "GOOGLE_AI_API_KEY"
     = Some "secret"
  /\ "secret" <> ""
  /\ "gemini-2.5-flash" = "gemini-2.5-flash"
  /\ exists action d t,
       In (action, d) instruction_table
       /\ reaches_provider (world_answering (Some "secret") "Dear ...")
            (post (payload (JStr "email_landlord") (JArr [chat_message "user" "Hi"])))
            "secret" d t
       /\ prompt "Draft a polite but firm email to the landlord." "user: Hi"
          = prompt d t.
Proof.
  apply (X3_provider_call (world_answering (Some "secret") "Dear ...")
           (post (payload (JStr "email_landlord") (JArr [chat_message "user" "Hi"])))
           "secret" "gemini-2.5-flash"
           (prompt "Draft a polite but firm email to the landlord." "user: Hi")).
  left. reflexivity.
Defined.

Lemma X4_empty_key :
  handler (world_answering (Some "") "unused")
    (post (payload (JStr "email_landlord") (JArr [])))
  = ([error_log "Missing Google AI API Key"],
     Normal (error_response "Missing Google AI API Key")).
Proof.
  refine (X4_empty_key_is_missing (world_answering (Some "") "unused")
            (post (payload (JStr "email_landlord") (JArr [])))
            (payload (JStr "email_landlord") (JArr []))
            (JStr "email_landlord") (JArr []) _ _ _ _);
    first [reflexivity | discriminate].
Defined.

Lemma X5_missing_history :
  exists e,
    name e = "TypeError"
    /\ conversationText JUndefined = Throw e
    /\ handler (world_answering (Some "secret") "unused")
         (post (JObj [("actionKey", JStr "email_landlord")]))
       = ([error_log (message e)], Normal (error_response (message e))).
Proof.
  refine (X5_history_not_an_array (world_answering (Some "secret") "unused")
            (post (JObj [("actionKey", JStr "email_landlord")]))
            (JObj [("actionKey", JStr "email_landlord")])
            (JStr "email_landlord") JUndefined "secret" _ _ _ _ _ _);
    first [reflexivity | discriminate].
Defined.

Lemma X6_null_after_a_message :
  exists e,
    name e = "TypeError"
    /\ conversationText (JArr [chat_message "user" "Hi"; JNull]) = Throw e
    /\ handler (world_answering (Some "secret") "unused")
         (post (payload (JStr "email_landlord")
                  (JArr [chat_message "user" "Hi"; JNull])))
       = ([error_log (message e)], Normal (error_response (message e))).
Proof.
  refine (X6_null_message (world_answering (Some "secret") "unused")
            (post (payload (JStr "email_landlord")
                     (JArr [chat_message "user" "Hi"; JNull])))
            (payload (JStr "email_landlord") (JArr [chat_message "user" "Hi"; JNull]))
            (JStr "email_landlord") [chat_message "user" "Hi"; JNull] "secret"
            _ _ _ _ _ _);
    first [reflexivity | discriminate | right; left; reflexivity].
Defined.

Lemma X7_two_histories :
  conversationText
    (JArr ([chat_message "user" "Hi"] ++ [chat_message "bot" "Hello"; JNum (integer 7)])%list)
  = Normal ("user: Hi" ++ LF ++ "bot: Hello" ++ LF ++ "undefined: undefined").
Proof.
  refine (X7_transcript_append [chat_message "user" "Hi"]
            [chat_message "bot" "Hello"; JNum (integer 7)]
            "user: Hi" ("bot: Hello" ++ LF ++ "undefined: undefined") _ _ _ _);
    first [reflexivity | discriminate].
Defined.

Lemma X8_three_fieldless :
  conversationText (JArr [JNum (integer 1); JStr "x"; JObj [("role", JStr "user")]])
  = Normal ("undefined: undefined" ++ LF ++ "undefined: undefined" ++ LF
            ++ "undefined: undefined").
Proof.
  apply (X8_fieldless_elements [JNum (integer 1); JStr "x"; JObj [("role", JStr "user")]]).
  reflexivity.
Defined.

Lemma X9_put_and_post :
  deliverable
    {| method := "PUT"; json := Normal (payload (JStr "email_landlord") (JArr [])) |}
  /\ deliverable (post (payload (JStr "email_landlord") (JArr [])))
  /\ handler (world_answering (Some "secret") "Dear ...")
       {| method := "PUT"; json := Normal (payload (JStr "email_landlord") (JArr [])) |}
     = handler (world_answering (Some "secret") "Dear ...")
         (post (payload (JStr "email_landlord") (JArr []))).
Proof.
  assert (Hput : deliverable
            {| method := "PUT";
               json := Normal (payload (JStr "email_landlord") (JArr [])) |}).
  { intros [H|H]; discriminate H. }
  assert (Hpost : deliverable (post (payload (JStr "email_landlord") (JArr [])))).
  { intros [H|H]; discriminate H. }
  split; [exact Hput|]. split; [exact Hpost|].
  apply X9_method_agnostic; first [assumption | reflexivity | discriminate].
Defined.

Lemma X10_extra_field :
  handler (world_answering (Some "secret") "Dear ...")
    (post (JObj [("userId", JNum (integer 42)); ("chatHistory", JArr []);
                 ("actionKey", JStr "email_council")]))
  = handler (world_answering (Some "secret") "Dear ...")
      (post (payload (JStr "email_council") (JArr []))).
Proof.
  refine (X10_only_two_fields (world_answering (Some "secret") "Dear ...")
            (post (JObj [("userId", JNum (integer 42)); ("chatHistory", JArr []);
                         ("actionKey", JStr "email_council")]))
            (post (payload (JStr "email_council") (JArr [])))
            (JObj [("userId", JNum (integer 42)); ("chatHistory", JArr []);
                   ("actionKey", JStr "email_council")])
            (payload (JStr "email_council") (JArr []))
            (JStr "email_council", JArr []) _ _ _ _ _ _);
    first [reflexivity | discriminate].
Defined.

Lemma X11_call_council :
  exists k,
    JStr "call_council" = JStr k
    /\ In (k, "Create a bullet-point list of key points for a phone call to the council.")
         instruction_table
    /\ table_key k = true.
Proof.
  apply X11_only_table_keys. reflexivity.
Defined.

Lemma X12_numeric_action_key :
  provider_calls
    (fst (handler (world_answering (Some "secret") "unused")
            (post (payload (JNum (integer 3)) (JArr [])))))
  = []
  /\ exists r,
       snd (handler (world_answering (Some "secret") "unused")
              (post (payload (JNum (integer 3)) (JArr [])))) = Normal r
       /\ status r = 500%Z.
Proof.
  refine (X12_unknown_action_stops (world_answering (Some "secret") "unused")
            (post (payload (JNum (integer 3)) (JArr [])))
            (payload (JNum (integer 3)) (JArr [])) (JNum (integer 3)) (JArr []) _ _ _ _);
    first [reflexivity | discriminate].
Defined.

Lemma X13_two_providers :
  handler {| env_get := fun _ => Some "secret";
             generateContent := fun _ _ _ => Throw (Error "quota exceeded") |}
    (post (payload (JStr "bogus") (JArr [])))
  = handler (world_answering (Some "secret") "unused")
      (post (payload (JStr "bogus") (JArr []))).
Proof.
  apply X13_independent_of_provider; reflexivity.
Defined.

Lemma X14_different_prompts :
  prompt "Draft a polite but firm email to the landlord." "user: Hi"
  <> prompt "Draft a polite but firm email to the landlord." "user: Bye"
  /\ prompt "Draft a polite but firm email to the landlord." "user: Hi"
     <> prompt "Create a simple, step-by-step guide on how to proceed." "user: Hi".
Proof.
  split.
  - apply (proj1 (X14_prompt_injective
                    "Draft a polite but firm email to the landlord."
                    "Draft a polite but firm email to the landlord."
                    "user: Hi" "user: Bye")).
    discriminate.
  - apply (proj2 (X14_prompt_injective
                    "Draft a polite but firm email to the landlord."
                    "Create a simple, step-by-step guide on how to proceed."
                    "user: Hi" "user: Hi")).
    discriminate.
Defined.

Lemma X15_null_body_without_key :
  handler (world_answering None "unused") (post JNull)
  = ([error_log "Cannot destructure property 'actionKey' of '(intermediate value)' as it is null."],
     Normal (error_response
       "Cannot destructure property 'actionKey' of '(intermediate value)' as it is null.")).
Proof.
  refine (X15_body_errors_first (world_answering None "unused") (post JNull)
            (TypeError "Cannot destructure property 'actionKey' of '(intermediate value)' as it is null.")
            _ _).
  - discriminate.
  - right. exists JNull. split; reflexivity.
Defined.
